(** * Greek curriculum generator: the three-stage pipeline of
      [greek_appv0.4_live.py] and its best-effort response parsers.

    The Streamlit script is embedded as a function from the widget values of
    one script run and the session state to the new session state and the way
    the run ended.  Python strings are sequences of Unicode code points. *)

From Stdlib Require Import NArith ZArith String Ascii.
From stdpp Require Import base option list gmap sorting.

Local Open Scope N_scope.

(** ** Python [str]: a sequence of code points *)

Abbreviation str := (list N).

(** String literals of this file are written as UTF-8 text and decoded to
    code points, so that [lit] of a Greek word or of an emoji has the length
    Python gives it. *)
Fixpoint utf8_decode (bs : list N) : str :=
  match bs with
  | [] => []
  | b :: r =>
      if b <? 128 then b :: utf8_decode r
      else if b <? 224 then
        match r with
        | b1 :: r1 => ((b - 192) * 64 + (b1 - 128)) :: utf8_decode r1
        | _ => []
        end
      else if b <? 240 then
        match r with
        | b1 :: b2 :: r2 =>
            ((b - 224) * 4096 + (b1 - 128) * 64 + (b2 - 128)) :: utf8_decode r2
        | _ => []
        end
      else
        match r with
        | b1 :: b2 :: b3 :: r3 =>
            ((b - 240) * 262144 + (b1 - 128) * 4096 + (b2 - 128) * 64 + (b3 - 128))
              :: utf8_decode r3
        | _ => []
        end
  end.

Definition lit (s : string) : str :=
  utf8_decode (map N_of_ascii (list_ascii_of_string s)).

(** The double quote, which appears inside the prompts and the literals. *)
Definition dq : N := 34.
Definition quoted (s : string) : str := dq :: lit s ++ [dq].

Module Py.

(** [s.startswith(p)] *)
Fixpoint startswith (p s : str) : bool :=
  match p, s with
  | [], _ => true
  | a :: p', b :: s' => (a =? b) && startswith p' s'
  | _ :: _, [] => false
  end.

(** [sub in s] *)
Fixpoint contains (sub s : str) : bool :=
  startswith sub s ||
  match s with
  | [] => false
  | _ :: r => contains sub r
  end.

(** [s.replace(old, new)] for a non-empty [old]: the occurrences are taken
    from the left and do not overlap.  [skip] counts the characters of a
    match that are still to be passed over. *)
Fixpoint replace_from (old new : str) (skip : nat) (s : str) : str :=
  match s with
  | [] => []
  | c :: r =>
      match skip with
      | S k => replace_from old new k r
      | O =>
          if startswith old s
          then new ++ replace_from old new (length old - 1) r
          else c :: replace_from old new 0 r
      end
  end.

(** With an empty [old] Python puts [new] before every character and at
    the end. *)
Definition replace (old new s : str) : str :=
  match old with
  | [] => new ++ flat_map (fun c => c :: new) s
  | _ :: _ => replace_from old new 0 s
  end.

(** [str.isspace] on one code point: the characters [str.strip()] removes. *)
Definition isspace (c : N) : bool :=
  ((9 <=? c) && (c <=? 13)) || ((28 <=? c) && (c <=? 32)) ||
  (c =? 133) || (c =? 160) || (c =? 5760) ||
  ((8192 <=? c) && (c <=? 8202)) || (c =? 8232) || (c =? 8233) ||
  (c =? 8239) || (c =? 8287) || (c =? 12288).

Fixpoint lstrip (s : str) : str :=
  match s with
  | [] => []
  | c :: r => if isspace c then lstrip r else s
  end.

Definition rstrip (s : str) : str := rev (lstrip (rev s)).

(** [s.strip()] *)
Definition strip (s : str) : str := rstrip (lstrip s).

(** [s.split(sep)] for a non-empty [sep] (both call sites pass a
    one-character literal).  The result is never empty: its head is the
    piece being read. *)
Fixpoint split_from (sep : str) (skip : nat) (s : str) : list str :=
  match s with
  | [] => [[]]
  | c :: r =>
      match skip with
      | S k => split_from sep k r
      | O =>
          if startswith sep s
          then [] :: split_from sep (length sep - 1) r
          else
            match split_from sep 0 r with
            | p :: ps => (c :: p) :: ps
            | [] => [[c]]
            end
      end
  end.

Definition split (sep s : str) : list str := split_from sep 0 s.

(** [sep.join(pieces)] *)
Fixpoint join (sep : str) (pieces : list str) : str :=
  match pieces with
  | [] => []
  | p :: ps =>
      match ps with
      | [] => p
      | _ :: _ => p ++ sep ++ join sep ps
      end
  end.

(** [str(n)] for a non-negative integer: its decimal digits. *)
Fixpoint digits (fuel : nat) (n : N) (acc : str) : str :=
  match fuel with
  | O => acc
  | S f =>
      let acc' := (48 + n mod 10) :: acc in
      if n <? 10 then acc' else digits f (n / 10) acc'
  end.

Definition str_of_nat (n : nat) : str := digits (S n) (N.of_nat n) [].

(** The slice [s[:n]] *)
Definition prefix (n : N) (s : str) : str := take (N.to_nat n) s.

End Py.

(** ** Python values *)

(** What [eval] can hand back to the calibration stage. *)
#[warnings="-register-all"]
Inductive pyobj : Type :=
| PyNone
| PyBool (b : bool)
| PyInt (z : Z)
| PyStr (s : str)
| PyList (l : list pyobj)
| PyDict (d : list (pyobj * pyobj)).

(** The truth value Python's [if] and [not] read off an object. *)
Definition truthy (v : pyobj) : bool :=
  match v with
  | PyNone => false
  | PyBool b => b
  | PyInt z => negb (z =? 0)%Z
  | PyStr s => negb (length s =? 0)%nat
  | PyList l => negb (length l =? 0)%nat
  | PyDict d => negb (length d =? 0)%nat
  end.

Definition hashable (v : pyobj) : bool :=
  match v with
  | PyList _ | PyDict _ => false
  | _ => true
  end.

Definition int_of_bool (b : bool) : Z := if b then 1%Z else 0%Z.

Definition str_eqb (a b : str) : bool := bool_decide (a = b).

(** [==] on hashable values: [True == 1] and [False == 0]. *)
Definition key_eqb (a b : pyobj) : bool :=
  match a, b with
  | PyNone, PyNone => true
  | PyBool x, PyBool y => Bool.eqb x y
  | PyBool x, PyInt z | PyInt z, PyBool x => (int_of_bool x =? z)%Z
  | PyInt x, PyInt y => (x =? y)%Z
  | PyStr x, PyStr y => str_eqb x y
  | _, _ => false
  end.

(** [d[k] = v] on a dict that keeps insertion order: an existing key keeps
    its place (and its first spelling), a new one goes to the end. *)
Fixpoint dict_set (d : list (pyobj * pyobj)) (k v : pyobj) : list (pyobj * pyobj) :=
  match d with
  | [] => [(k, v)]
  | (k', v') :: d' =>
      if key_eqb k' k then (k', v) :: d' else (k', v') :: dict_set d' k v
  end.

Fixpoint dict_lookup (d : list (pyobj * pyobj)) (k : pyobj) : option pyobj :=
  match d with
  | [] => None
  | (k', v') :: d' => if key_eqb k' k then Some v' else dict_lookup d' k
  end.

(** ** The literal sublanguage of [eval]

    [analyze_curriculum_llm] hands the cleaned model response to Python's
    [eval].  [Literal.eval] gives the value of a text made of the displays
    the calibration prompt asks for: string literals in either quote with
    the escapes [\\ \' \dq \n \t \r \xhh], decimal integers, [None], [True],
    [False], and list and dict displays of these.  It is one-sided: where it
    returns a value, CPython's [eval] returns that value; [None] stands for
    a text on which CPython raises or that lies outside the sublanguage
    (operators, names, calls, comments, other literal forms) or beyond the
    bounds kept here to stay within what every CPython accepts (code points
    that are no scalar values, integers of more than 4300 digits, displays
    nested deeper than [max_depth]). *)
Module Literal.

Definition is_digit (c : N) : bool := (48 <=? c) && (c <=? 57).

(** A code point a source text may hold: not NUL, no surrogate, within
    the Unicode range. *)
Definition valid_char (c : N) : bool :=
  (0 <? c) && ((c <? 55296) || ((57343 <? c) && (c <=? 1114111))).

Definition max_digits : N := 4300.

Definition max_depth : nat := 20.

Definition hex_val (c : N) : option N :=
  if is_digit c then Some (c - 48)
  else if (97 <=? c) && (c <=? 102) then Some (c - 87)
  else if (65 <=? c) && (c <=? 70) then Some (c - 55)
  else None.

Definition simple_escape (e : N) : option N :=
  if e =? 92 then Some 92
  else if e =? 39 then Some 39
  else if e =? 34 then Some 34
  else if e =? 110 then Some 10
  else if e =? 116 then Some 9
  else if e =? 114 then Some 13
  else None.

(** The body of a string literal opened by the quote [q]: its value and
    the text after the closing quote. *)
Fixpoint lex_string (q : N) (s : str) : option (str * str) :=
  match s with
  | [] => None
  | c :: r =>
      if c =? q then Some ([], r)
      else if (c =? 10) || (c =? 13) then None
      else if c =? 92 then
        match r with
        | [] => None
        | e :: r' =>
            if e =? 120 then
              match r' with
              | h1 :: h2 :: r'' =>
                  match hex_val h1, hex_val h2, lex_string q r'' with
                  | Some a, Some b, Some (v, rest) => Some ((16 * a + b) :: v, rest)
                  | _, _, _ => None
                  end
              | _ => None
              end
            else
              match simple_escape e, lex_string q r' with
              | Some x, Some (v, rest) => Some (x :: v, rest)
              | _, _ => None
              end
        end
      else
        match lex_string q r with
        | Some (v, rest) => Some (c :: v, rest)
        | None => None
        end
  end.

Fixpoint lex_digits (s : str) (acc : N) : N * str :=
  match s with
  | [] => (acc, [])
  | c :: r => if is_digit c then lex_digits r (10 * acc + (c - 48)) else (acc, s)
  end.

(** White space between the tokens of a display. *)
Definition is_ws (c : N) : bool :=
  (c =? 32) || (c =? 9) || (c =? 10) || (c =? 12).

Fixpoint skip_ws (s : str) : str :=
  match s with
  | [] => []
  | c :: r => if is_ws c then skip_ws r else s
  end.

Fixpoint parse_value (fuel depth : nat) (s : str) : option (pyobj * str) :=
  match fuel with
  | O => None
  | S f =>
      match s with
      | [] => None
      | c :: r =>
          if (c =? 34) || (c =? 39) then
            if Py.startswith [c; c] r then None
            else
              match lex_string c r with
              | Some (v, rest) => Some (PyStr v, rest)
              | None => None
              end
          else if is_digit c then
            let '(n, rest) := lex_digits s 0 in
            if (c =? 48) && negb (n =? 0) then None
            else if max_digits <? N.of_nat (length s - length rest) then None
            else Some (PyInt (Z.of_N n), rest)
          else if c =? 91 then
            match depth with
            | O => None
            | S d =>
                match parse_items f d (skip_ws r) with
                | Some (l, rest) => Some (PyList l, rest)
                | None => None
                end
            end
          else if c =? 123 then
            match depth with
            | O => None
            | S d =>
                match parse_pairs f d (skip_ws r) [] with
                | Some (d, rest) => Some (PyDict d, rest)
                | None => None
                end
            end
          else if Py.startswith (lit "None") s then Some (PyNone, drop 4 s)
          else if Py.startswith (lit "True") s then Some (PyBool true, drop 4 s)
          else if Py.startswith (lit "False") s then Some (PyBool false, drop 5 s)
          else None
      end
  end

with parse_items (fuel depth : nat) (s : str) : option (list pyobj * str) :=
  match fuel with
  | O => None
  | S f =>
      match s with
      | [] => None
      | c :: r =>
          if c =? 93 then Some ([], r)
          else
            match parse_value f depth s with
            | None => None
            | Some (v, rest) =>
                match skip_ws rest with
                | [] => None
                | d :: r' =>
                    if d =? 44 then
                      match parse_items f depth (skip_ws r') with
                      | Some (l, rest') => Some (v :: l, rest')
                      | None => None
                      end
                    else if d =? 93 then Some ([v], r')
                    else None
                end
            end
      end
  end

(** [acc] is the dict built from the pairs read so far; an unhashable key
    is a [TypeError]. *)
with parse_pairs (fuel depth : nat) (s : str) (acc : list (pyobj * pyobj))
  : option (list (pyobj * pyobj) * str) :=
  match fuel with
  | O => None
  | S f =>
      match s with
      | [] => None
      | c :: r =>
          if c =? 125 then Some (acc, r)
          else
            match parse_value f depth s with
            | None => None
            | Some (k, rest) =>
                match skip_ws rest with
                | [] => None
                | colon :: r1 =>
                    if colon =? 58 then
                      match parse_value f depth (skip_ws r1) with
                      | None => None
                      | Some (v, rest1) =>
                          if hashable k then
                            match skip_ws rest1 with
                            | [] => None
                            | d :: r2 =>
                                if d =? 44
                                then parse_pairs f depth (skip_ws r2) (dict_set acc k v)
                                else if d =? 125 then Some (dict_set acc k v, r2)
                                else None
                            end
                          else None
                      end
                    else None
                end
            end
      end
  end.

(** [eval] drops leading blanks; the expression may follow blank lines
    but must then start in the first column ([IndentationError]). *)
Fixpoint lstrip_blank (s : str) : str :=
  match s with
  | [] => []
  | c :: r => if (c =? 32) || (c =? 9) then lstrip_blank r else s
  end.

Fixpoint leading (indented : bool) (s : str) : option str :=
  match s with
  | [] => None
  | c :: r =>
      if c =? 10 then leading false r
      else if (c =? 32) || (c =? 9) then leading true r
      else if indented then None
      else Some s
  end.

Definition eval (s : str) : option pyobj :=
  if negb (forallb valid_char s) then None
  else
    match leading false (lstrip_blank s) with
    | None => None
    | Some start =>
        match parse_value (2 * length s + 2) max_depth start with
        | Some (v, rest) => if forallb is_ws rest then Some v else None
        | None => None
        end
    end.

End Literal.

(** ** Exceptions *)

Inductive exn : Type :=
| ModelError (detail : str)
| EvalError
| AttributeError
| IndexError
| UnicodeDecodeError.

Inductive result (A : Type) : Type :=
| Ok (a : A)
| Raised (e : exn).
Arguments Ok {A} a.
Arguments Raised {A} e.

(** [try: body except: handler] around an expression. *)
Definition try_except {A : Type} (body : result A) (handler : A) : A :=
  match body with
  | Ok a => a
  | Raised _ => handler
  end.

(** ** The collaborators of the script *)

(** [get_model(api_key).generate_content(prompt).text]: the text of the
    response, or the exception the client raises. *)
Abbreviation Gemini := (str -> str -> result str).

(** An uploaded file: what [PdfReader] makes of it ([None] when it raises,
    else the text of each page) and what [getvalue().decode('utf-8')] makes
    of it ([None] when the bytes are not UTF-8). *)
Record UploadedFile : Type := {
  name : str;
  type : str;
  pdf_pages : option (list str);
  utf8_text : option str
}.

Definition nl : N := 10.

(** Every line followed by a line break. *)
Definition unlines (ls : list str) : str := concat (map (fun l => l ++ [nl]) ls).

(** ** Data model *)

Record Config : Type := {
  audience : str;
  level : str;
  grading : str;
  themes : str
}.

Record Row : Type := {
  Week : str;
  Theme : str;
  Grammar_Focus : str;
  Status : str
}.

Abbreviation DataFrame := (list Row).

Record LessonMaterial : Type := {
  t_guide : str;
  s_text : str;
  exercises : str
}.

Record SessionState : Type := {
  locked_config : option Config;
  syllabus_df : option DataFrame;
  generated_lessons : gmap str str;
  analyzed_curriculum : pyobj
}.

(** The session state a fresh session starts from (lines 17-20). *)
Definition initial_state : SessionState :=
  {| locked_config := None;
     syllabus_df := None;
     generated_lessons := ∅;
     analyzed_curriculum := PyDict [] |}.

(** The two Python builtins whose full behaviour is not written out here.
    [eval] is called inside [analyze_curriculum_llm] and so runs the text
    with the globals of the module, where [st] is bound: besides giving a
    value, or raising, it can leave [st.session_state] changed.  [repr] is
    the [repr] of a [str]. *)
Record Python : Type := {
  py_eval : str -> SessionState -> SessionState * result pyobj;
  py_repr : str -> str
}.

Definition PENDING : str := Eval vm_compute in lit "🔴".
Definition COMPLETE : str := Eval vm_compute in lit "🟢".

(** ** Helper functions of the script *)

(** [extract_pdf_text]: the page texts, each followed by a line break;
    [None] (after an error box) when the reader raises. *)
Definition extract_pdf_text (uploaded_file : UploadedFile) : option str :=
  match pdf_pages uploaded_file with
  | Some pages => Some (unlines pages)
  | None => None
  end.

Definition calibration_prompt (text : str) : str :=
  nl :: unlines [
    lit "    ACT AS: Expert Pedagogical Analyst for Greek (Modersmål).";
    lit "    TASK: Analyze the following Swedish curriculum text and extract 4 key data points.";
    lit "    ";
    lit "    OUTPUT FORMAT: Return ONLY a valid Python Dictionary string (JSON-like) with these keys:";
    lit "    {";
    lit "        " ++ quoted "audience" ++ lit ": " ++ quoted "Target grade and student profile" ++ lit ",";
    lit "        " ++ quoted "level" ++ lit ": " ++ quoted "Estimated CEFR level (e.g., A1, B2)" ++ lit ",";
    lit "        " ++ quoted "grading" ++ lit ": " ++ quoted "Summary of Grade E criteria" ++ lit ",";
    lit "        " ++ quoted "themes" ++ lit ": " ++ quoted "List of central themes (comma separated)";
    lit "    }";
    [];
    lit "    CURRICULUM TEXT:";
    lit "    " ++ Py.prefix 10000 text ++ lit " "
  ] ++ lit "    ".

Definition fence_json : str := lit "```json".
Definition fence_python : str := lit "```python".
Definition fence : str := lit "```".

(** Line 59: the three [replace] calls, in their order. *)
Definition clean_response (response_text : str) : str :=
  Py.replace fence []
    (Py.replace fence_python []
       (Py.replace fence_json [] response_text)).

(** The dict of the [except] branch of line 63. *)
Definition error_profile : pyobj :=
  PyDict [ (PyStr (lit "audience"), PyStr (lit "Error parsing"));
           (PyStr (lit "level"), PyStr (lit "Error"));
           (PyStr (lit "grading"), PyStr (lit "Error"));
           (PyStr (lit "themes"), PyStr (lit "Error")) ].

(** Lines 58-63, the calibration parser: clean, evaluate, and fall back to
    the error dict on any exception of the evaluation. *)
Definition parse_calibration (py : Python) (response_text : str)
    (st : SessionState) : SessionState * pyobj :=
  let clean_text := clean_response response_text in
  let evaluated := py_eval py clean_text st in
  (fst evaluated, try_except (snd evaluated) error_profile).

(** [analyze_curriculum_llm]: the model call is outside the [try]. *)
Definition analyze_curriculum_llm (py : Python) (gemini : Gemini)
    (text api_key : str) (st : SessionState) : SessionState * result pyobj :=
  match gemini api_key (calibration_prompt text) with
  | Raised e => (st, Raised e)
  | Ok response_text =>
      let parsed := parse_calibration py response_text st in
      (fst parsed, Ok (snd parsed))
  end.

(** [f"{config}"]: the [repr] of the four-key dict. *)
Definition show_config (py : Python) (config : option Config) : str :=
  match config with
  | None => lit "None"
  | Some c =>
      lit "{'audience': " ++ py_repr py (audience c) ++
      lit ", 'level': " ++ py_repr py (level c) ++
      lit ", 'grading': " ++ py_repr py (grading c) ++
      lit ", 'themes': " ++ py_repr py (themes c) ++ lit "}"
  end.

Definition skeleton_prompt (py : Python) (config : option Config) : str :=
  nl :: unlines [
    lit "    ACT AS: Curriculum Architect.";
    lit "    CONTEXT: " ++ show_config py config;
    lit "    TASK: Create a 34-week academic syllabus for this class.";
    lit "    ";
    lit "    REQUIREMENTS:";
    lit "    - Distribute the 'themes' logically across 34 weeks.";
    lit "    - Include Grammar progression.";
    lit "    - OUTPUT FORMAT: A raw text list with exactly 34 lines. Each line must be: "
      ++ quoted "Theme | Grammar Focus";
    lit "    ";
    lit "    Example:";
    lit "    Myths: Zeus | Noun Gender";
    lit "    Geography: Athens | Adjectives";
    lit "    ..."
  ] ++ lit "    ".

(** [generate_skeleton_llm]: the stripped response, split at line breaks. *)
Definition generate_skeleton_llm (py : Python) (gemini : Gemini)
    (config : option Config) (api_key : str) : result (list str) :=
  match gemini api_key (skeleton_prompt py config) with
  | Raised e => Raised e
  | Ok response_text => Ok (Py.split [nl] (Py.strip response_text))
  end.

(** [generate_lesson_material] *)
Definition generate_lesson_material (gemini : Gemini)
    (prompt_payload api_key : str) : result str :=
  gemini api_key prompt_payload.

(** ** Stage 2: the skeleton parser (lines 158-168) *)

Definition pipe : str := lit "|".

Definition week_label (i : nat) : str := lit "Week " ++ Py.str_of_nat (i + 1).

(** The dict appended for a line that contains the separator. *)
Definition row_of_line (i : nat) (line : str) : Row :=
  let parts := Py.split pipe line in
  let theme := Py.strip (nth 0 parts []) in
  let grammar :=
    if (1 <? length parts)%nat then Py.strip (nth 1 parts []) else lit "Review" in
  {| Week := week_label i; Theme := theme; Grammar_Focus := grammar; Status := PENDING |}.

(** The [for i, line in enumerate(lines)] loop; [i] is the position of the
    head of [lines] and [structured_data] the list built so far. *)
Fixpoint parse_lines (i : nat) (lines : list str) (structured_data : list Row)
  : list Row :=
  match lines with
  | [] => structured_data
  | line :: rest =>
      parse_lines (S i) rest
        (if Py.contains pipe line
         then structured_data ++ [row_of_line i line]
         else structured_data)
  end.

Definition placeholder_row (i : nat) : Row :=
  {| Week := week_label i; Theme := lit "Topic";
     Grammar_Focus := lit "Grammar"; Status := PENDING |}.

(** Line 168: [range(34)] placeholder rows. *)
Definition fallback_rows : list Row := map placeholder_row (seq 0 34).

(** Lines 158-170: what becomes [syllabus_df]. *)
Definition build_skeleton (lines : list str) : DataFrame :=
  let structured_data := parse_lines 0 lines [] in
  match structured_data with
  | [] => fallback_rows
  | _ :: _ => structured_data
  end.

(** ** Stage 3: the lesson prompt (lines 222-248) *)

(** One [source_text += ...] of the loop over the uploaded files. *)
Definition source_block (file_name body : str) : str :=
  nl :: lit "SOURCE (" ++ file_name ++ lit "):" ++ [nl] ++ body ++ [nl].

Definition show_optional (o : option str) : str :=
  match o with
  | Some t => t
  | None => lit "None"
  end.

Fixpoint read_sources (uploaded_context : list UploadedFile) (source_text : str)
  : result str :=
  match uploaded_context with
  | [] => Ok source_text
  | f :: rest =>
      if str_eqb (type f) (lit "application/pdf")
      then read_sources rest
             (source_text ++ source_block (name f) (show_optional (extract_pdf_text f)))
      else
        match utf8_text f with
        | Some t => read_sources rest (source_text ++ source_block (name f) t)
        | None => Raised UnicodeDecodeError
        end
  end.

Definition use_source_strictly : str := lit "INSTRUCTIONS: Use SOURCE MATERIAL strictly.".
Definition write_creative : str := lit "INSTRUCTIONS: Write creative Greek text.".
Definition dyslexia_friendly : str := lit "CONSTRAINT: Dyslexia-friendly, simple sentences.".

(** The truth value of a [str]. *)
Definition nonempty (s : str) : bool := negb (length s =? 0)%nat.

Definition instruction_mode (source_text : str) : str :=
  if nonempty source_text then use_source_strictly else write_creative.

Definition access_mode (accessibility : bool) : str :=
  if accessibility then dyslexia_friendly else [].

Definition full_prompt (py : Python) (config : option Config)
    (week_to_edit custom_topic custom_grammar teacher_notes : str)
    (accessibility : bool) (source_text : str) : str :=
  nl :: unlines [
    lit "        CONTEXT: " ++ show_config py config;
    lit "        WEEK: " ++ week_to_edit ++ lit " | TOPIC: " ++ custom_topic
      ++ lit " | GRAMMAR: " ++ custom_grammar;
    lit "        TEACHER NOTES: " ++ teacher_notes;
    lit "        ACCESSIBILITY: " ++ access_mode accessibility;
    lit "        " ++ instruction_mode source_text;
    lit "        ";
    lit "        SOURCE MATERIAL:";
    lit "        " ++ Py.prefix 20000 source_text ++ lit " ";
    [];
    lit "        OUTPUT: Generte XML with <TEACHER>, <STUDENT_TEXT> (in Greek), <STUDENT_EXERCISES> (in Greek)."
  ] ++ lit "        ".

(** ** Stage 3: the lesson parser (lines 264-275) *)

(** [re.search(open(.*?)close, raw, re.DOTALL)]: the start positions are
    tried from the left; at a start where [open] matches, the lazy group
    takes as few characters (of any kind) as lets [close] match.  The result
    is the match object's [group(1)], or [None] when nothing matches. *)
Module Re.

Fixpoint lazy_group (close s : str) : option str :=
  if Py.startswith close s then Some []
  else
    match s with
    | [] => None
    | c :: r =>
        match lazy_group close r with
        | Some g => Some (c :: g)
        | None => None
        end
    end.

Definition match_at (open close s : str) : option str :=
  if Py.startswith open s then lazy_group close (drop (length open) s) else None.

Fixpoint search (open close s : str) : option str :=
  match match_at open close s with
  | Some g => Some g
  | None =>
      match s with
      | [] => None
      | _ :: r => search open close r
      end
  end.

End Re.

(** [m.group(1)] on the result of [re.search]: an [AttributeError] on [None]. *)
Definition group1 (m : option str) : result str :=
  match m with
  | Some g => Ok g
  | None => Raised AttributeError
  end.

Definition map_result {A B : Type} (f : A -> B) (r : result A) : result B :=
  match r with
  | Ok a => Ok (f a)
  | Raised e => Raised e
  end.

(** One [try: ... .group(1).strip() except: marker] block. *)
Definition extract_section (tag : string) (marker : str) (raw : str) : str :=
  try_except
    (map_result Py.strip
       (group1 (Re.search (lit "<" ++ lit tag ++ lit ">")
                          (lit "</" ++ lit tag ++ lit ">") raw)))
    marker.

Definition teacher_marker : str := lit "Error parsing Teacher Guide".
Definition student_marker : str := lit "Error parsing Student Text".
Definition exercises_marker : str := lit "Error parsing Exercises".

Definition parse_lesson (raw : str) : LessonMaterial :=
  {| t_guide := extract_section "TEACHER" teacher_marker raw;
     s_text := extract_section "STUDENT_TEXT" student_marker raw;
     exercises := extract_section "STUDENT_EXERCISES" exercises_marker raw |}.

(** ** The script as a state transformer

    One run of the script reads the widgets, may change the session state,
    and ends at its last line, at a [st.rerun()], or with an exception that
    nothing in the script catches.  Changes made before the end persist. *)

Inductive stop : Type :=
| Rerun
| Uncaught (e : exn).

Inductive outcome (A : Type) : Type :=
| Done (a : A)
| Stopped (why : stop).
Arguments Done {A} a.
Arguments Stopped {A} why.

Definition Script (A : Type) : Type := SessionState -> SessionState * outcome A.

#[global] Instance Script_ret : MRet Script :=
  fun A a st => (st, Done a).

#[global] Instance Script_bind : MBind Script :=
  fun A B k m st =>
    match m st with
    | (st', Done a) => k a st'
    | (st', Stopped why) => (st', Stopped why)
    end.

Definition get : Script SessionState := fun st => (st, Done st).

Definition modify (f : SessionState -> SessionState) : Script unit :=
  fun st => (f st, Done tt).

(** [st.rerun()] *)
Definition rerun {A : Type} : Script A := fun st => (st, Stopped Rerun).

(** A call that may raise: nothing in the script catches it. *)
Definition lift {A : Type} (r : result A) : Script A :=
  fun st =>
    match r with
    | Ok a => (st, Done a)
    | Raised e => (st, Stopped (Uncaught e))
    end.

(** A call that may raise and may change the session state. *)
Definition call {A : Type} (f : SessionState -> SessionState * result A) : Script A :=
  fun st =>
    match snd (f st) with
    | Ok a => (fst (f st), Done a)
    | Raised e => (fst (f st), Stopped (Uncaught e))
    end.

Definition set_locked_config (c : option Config) (st : SessionState) : SessionState :=
  {| locked_config := c;
     syllabus_df := syllabus_df st;
     generated_lessons := generated_lessons st;
     analyzed_curriculum := analyzed_curriculum st |}.

Definition set_syllabus_df (d : option DataFrame) (st : SessionState) : SessionState :=
  {| locked_config := locked_config st;
     syllabus_df := d;
     generated_lessons := generated_lessons st;
     analyzed_curriculum := analyzed_curriculum st |}.

Definition set_generated_lessons (g : gmap str str) (st : SessionState) : SessionState :=
  {| locked_config := locked_config st;
     syllabus_df := syllabus_df st;
     generated_lessons := g;
     analyzed_curriculum := analyzed_curriculum st |}.

Definition set_analyzed_curriculum (a : pyobj) (st : SessionState) : SessionState :=
  {| locked_config := locked_config st;
     syllabus_df := syllabus_df st;
     generated_lessons := generated_lessons st;
     analyzed_curriculum := a |}.

(** *** Widgets *)

Inductive Button : Type :=
| Analyze_Document
| Lock_Configuration
| Generate_Skeleton
| Reset_Syllabus
| Generate_Lesson_Materials.

Definition Button_eqb (a b : Button) : bool :=
  match a, b with
  | Analyze_Document, Analyze_Document
  | Lock_Configuration, Lock_Configuration
  | Generate_Skeleton, Generate_Skeleton
  | Reset_Syllabus, Reset_Syllabus
  | Generate_Lesson_Materials, Generate_Lesson_Materials => true
  | _, _ => false
  end.

(** What the widgets return during one run.  At most one button triggers a
    run; [data_editor] is the grid's answer to the frame it is shown;
    [gemini] is the remote model as it answers during this run. *)
Record Widgets : Type := {
  api_key : str;
  uploaded_curriculum : option UploadedFile;
  clicked : option Button;
  audience_input : str;
  level_input : str;
  grading_input : str;
  themes_input : str;
  data_editor : DataFrame -> DataFrame;
  week_choice : nat;
  custom_topic : str;
  custom_grammar : str;
  accessibility : bool;
  teacher_notes : str;
  uploaded_context : list UploadedFile;
  gemini : Gemini
}.

(** [st.button(b)] and [st.form_submit_button(b)] *)
Definition button (w : Widgets) (b : Button) : bool :=
  match clicked w with
  | Some c => Button_eqb c b
  | None => false
  end.

(** [st.selectbox(label, options)]: one of the options, the first one unless
    the user chose another. *)
Definition selectbox (options : list str) (index : nat) : str :=
  default (hd [] options) (options !! index).

(** [data.get(key, '')] needs a dict. *)
Definition dict_get_check (data : pyobj) : result unit :=
  match data with
  | PyDict _ => Ok tt
  | _ => Raised AttributeError
  end.

(** The position of the first row with the given [Week], as
    [df.index[df['Week'] == week][0]] and [.loc[...].iloc[0]] look it up. *)
Definition first_week (week : str) (df : DataFrame) : result nat :=
  match list_find (fun r => Week r = week) df with
  | Some (idx, _) => Ok idx
  | None => Raised IndexError
  end.

Definition with_status (s : str) (r : Row) : Row :=
  {| Week := Week r; Theme := Theme r; Grammar_Focus := Grammar_Focus r; Status := s |}.

(** [df.at[idx, 'Status'] = s] *)
Definition set_status (idx : nat) (s : str) (df : DataFrame) : DataFrame :=
  alter (with_status s) idx df.

(** *** Step 1: calibration (lines 108-139) *)
Definition step1 (py : Python) (w : Widgets) : Script unit :=
  st ← get;
  match uploaded_curriculum w with
  | Some uploaded =>
      if nonempty (api_key w) && negb (truthy (analyzed_curriculum st))
         && button w Analyze_Document
      then
        match extract_pdf_text uploaded with
        | Some raw_text =>
            if nonempty raw_text then
              analysis ← call (analyze_curriculum_llm py (gemini w) raw_text (api_key w));
              modify (set_analyzed_curriculum analysis);;
              rerun
            else mret tt
        | None => mret tt
        end
      else mret tt
  | None => mret tt
  end;;
  st ← get;
  if truthy (analyzed_curriculum st) then
    lift (dict_get_check (analyzed_curriculum st));;
    if button w Lock_Configuration then
      modify (set_locked_config
                (Some {| audience := audience_input w; level := level_input w;
                         grading := grading_input w; themes := themes_input w |}));;
      rerun
    else mret tt
  else mret tt.

(** *** Step 2: the year plan (lines 144-189).  The value tells whether the
    [Need API Key] error box is shown. *)
Definition step2 (py : Python) (w : Widgets) : Script bool :=
  st ← get;
  match locked_config st with
  | None => mret false
  | Some _ =>
      need_key ←
        match syllabus_df st with
        | None =>
            if button w Generate_Skeleton then
              if negb (nonempty (api_key w)) then mret true
              else
                lines ← lift (generate_skeleton_llm py (gemini w)
                                (locked_config st) (api_key w));
                modify (set_syllabus_df (Some (build_skeleton lines)));;
                rerun
            else mret false
        | Some _ => mret false
        end;
      st ← get;
      match syllabus_df st with
      | Some df =>
          let edited_df := data_editor w df in
          modify (set_syllabus_df (Some edited_df));;
          if button w Reset_Syllabus then
            modify (set_syllabus_df None);;
            rerun
          else mret need_key
      | None => mret need_key
      end
  end.

(** *** Step 3: the workbench (lines 194-280).  The value is the preview
    shown for the selected week, if any. *)
Definition step3 (py : Python) (w : Widgets) : Script (option LessonMaterial) :=
  st ← get;
  match syllabus_df st with
  | Some ((_ :: _) as df) =>
      let week_options := map Week df in
      let week_to_edit := selectbox week_options (week_choice w) in
      lift (first_week week_to_edit df);;
      (if button w Generate_Lesson_Materials && nonempty (api_key w) then
         source_text ← lift (read_sources (uploaded_context w) []);
         let prompt :=
           full_prompt py (locked_config st) week_to_edit (custom_topic w)
             (custom_grammar w) (teacher_notes w) (accessibility w) source_text in
         output ← lift (generate_lesson_material (gemini w) prompt (api_key w));
         modify (set_generated_lessons (<[week_to_edit := output]> (generated_lessons st)));;
         idx ← lift (first_week week_to_edit df);
         modify (set_syllabus_df (Some (set_status idx COMPLETE df)));;
         rerun
       else mret tt);;
      st ← get;
      mret (parse_lesson <$> generated_lessons st !! week_to_edit)
  | _ => mret None
  end.

Record View : Type := {
  need_api_key : bool;
  preview : option LessonMaterial
}.

(** The main part of the script, top to bottom. *)
Definition script (py : Python) (w : Widgets) : Script View :=
  step1 py w;;
  need_key ← step2 py w;
  shown ← step3 py w;
  mret {| need_api_key := need_key; preview := shown |}.

(** One run: the new session state and how the run ended. *)
Definition run (py : Python) (w : Widgets) (st : SessionState)
  : SessionState * outcome View :=
  script py w st.

(** A session: the runs one after the other, each on the state the run
    before it left. *)
Fixpoint session (py : Python) (ws : list Widgets) (st : SessionState) : SessionState :=
  match ws with
  | [] => st
  | w :: ws' => session py ws' (fst (run py w st))
  end.

(** ** A concrete runtime and concrete widgets, for examples *)

(** [repr] of a [str]: in single quotes, or in double quotes when the text
    holds a single quote and no double quote; backslash and the chosen
    quote behind a backslash, [\n], [\r], [\t], and [\xhh] for the other
    code points up to U+00A0 that are not printable and for U+00AD.  Code
    points from U+0100 on are written as they are, which is what CPython
    does for the printable ones. *)
Definition hex_digit (n : N) : N := if n <? 10 then 48 + n else 87 + n.

Definition repr_char (q c : N) : str :=
  if c =? 92 then [92; 92]
  else if c =? q then [92; q]
  else if c =? 10 then [92; 110]
  else if c =? 13 then [92; 114]
  else if c =? 9 then [92; 116]
  else if (c <? 32) || ((127 <=? c) && (c <=? 160)) || (c =? 173)
  then [92; 120; hex_digit (c / 16); hex_digit (c mod 16)]
  else [c].

Definition repr_quote (s : str) : N :=
  if Py.contains [39] s && negb (Py.contains [dq] s) then dq else 39.

Definition repr_str (s : str) : str :=
  let q := repr_quote s in
  q :: concat (map (repr_char q) s) ++ [q].

(** *** Expressions that write the session state

    The text given to [eval] can reach [st.session_state].  Beside the
    literals one such form is written out:
    [st.session_state.__setitem__('generated_lessons', D) or E] with [D] a
    dict display of strings to strings and [E] a literal.  The call stores
    [D] under the key and returns [None], so the [or] gives the value of
    [E]. *)
Definition setitem_lessons : str :=
  lit "st.session_state.__setitem__('generated_lessons', ".

Definition or_keyword : str := lit ") or ".

Fixpoint lessons_of (d : list (pyobj * pyobj)) : option (gmap str str) :=
  match d with
  | [] => Some ∅
  | (PyStr k, PyStr v) :: rest =>
      match lessons_of rest with
      | Some g => Some (<[k := v]> g)
      | None => None
      end
  | _ => None
  end.

Definition setitem_eval (s : str) (st : SessionState) : option (SessionState * pyobj) :=
  let fuel := (2 * length s + 2)%nat in
  if forallb Literal.valid_char s && Py.startswith setitem_lessons s then
    match Literal.parse_value fuel Literal.max_depth (drop (length setitem_lessons) s) with
    | Some (PyDict d, rest) =>
        if Py.startswith or_keyword rest then
          match lessons_of d,
                Literal.parse_value fuel Literal.max_depth (drop (length or_keyword) rest) with
          | Some g, Some (v, rest') =>
              if forallb Literal.is_ws rest'
              then Some (set_generated_lessons g st, v)
              else None
          | _, _ => None
          end
        else None
    | _ => None
    end
  else None.

(** The value and the effect of the texts written out here; [None] where
    neither [Literal.eval] nor the form above applies. *)
Definition session_eval (s : str) (st : SessionState) : option (SessionState * pyobj) :=
  match Literal.eval s with
  | Some v => Some (st, v)
  | None => setitem_eval s st
  end.

(** A runtime that raises on every text [session_eval] does not cover. *)
Definition literal_python : Python :=
  {| py_eval := fun s st =>
       match session_eval s st with
       | Some (st', v) => (st', Ok v)
       | None => (st, Raised EvalError)
       end;
     py_repr := repr_str |}.

(** Widgets of a run in which the user touches nothing; the model would
    answer [reply]. *)
Definition idle (key : str) (reply : result str) : Widgets :=
  {| api_key := key;
     uploaded_curriculum := None;
     clicked := None;
     audience_input := [];
     level_input := [];
     grading_input := [];
     themes_input := [];
     data_editor := fun df => df;
     week_choice := 0;
     custom_topic := [];
     custom_grammar := [];
     accessibility := false;
     teacher_notes := [];
     uploaded_context := [];
     gemini := fun _ _ => reply |}.

(** ** Responses of the shape the calibration prompt asks for *)

(** How a four-key dict literal is laid out: the quote character of its
    string literals, and the white space after the opening brace and each
    comma, after each colon, and before the closing brace. *)
Record Layout : Type := {
  quote : N;
  indent : str;
  gap : str;
  closing : str
}.

Definition blank_text (s : str) : Prop :=
  Forall (fun c => Literal.is_ws c = true) s.

Definition well_formed (ly : Layout) : Prop :=
  (quote ly = 34 \/ quote ly = 39) /\
  blank_text (indent ly) /\ blank_text (gap ly) /\ blank_text (closing ly).

Definition render_string (q : N) (s : str) : str := q :: s ++ [q].

(** The literal of a profile: the four pairs in the order of the prompt. *)
Definition render (ly : Layout) (c : Config) : str :=
  (lit "{" ++ indent ly) ++ render_string (quote ly) (lit "audience") ++
  (lit ":" ++ gap ly) ++ render_string (quote ly) (audience c) ++
  (lit "," ++ indent ly) ++ render_string (quote ly) (lit "level") ++
  (lit ":" ++ gap ly) ++ render_string (quote ly) (level c) ++
  (lit "," ++ indent ly) ++ render_string (quote ly) (lit "grading") ++
  (lit ":" ++ gap ly) ++ render_string (quote ly) (grading c) ++
  (lit "," ++ indent ly) ++ render_string (quote ly) (lit "themes") ++
  (lit ":" ++ gap ly) ++ render_string (quote ly) (themes c) ++
  (closing ly ++ lit "}").

(** The markdown fence a model may put around its answer. *)
Inductive Fence : Type :=
| NoFence
| JsonFence
| PythonFence
| PlainFence.

Definition wrap (f : Fence) (body : str) : str :=
  match f with
  | NoFence => body
  | JsonFence => fence_json ++ nl :: body ++ nl :: fence
  | PythonFence => fence_python ++ nl :: body ++ nl :: fence
  | PlainFence => fence ++ nl :: body ++ nl :: fence
  end.

(** What is left of a wrapped body once the fence tokens are gone. *)
Definition unfenced (f : Fence) (body : str) : str :=
  match f with
  | NoFence => body
  | _ => nl :: body ++ [nl]
  end.

(** Text that a string literal in the quote [q] spells as it stands:
    Unicode scalar values other than NUL, with no quote, backslash or line
    break. *)
Definition plain_text (q : N) (s : str) : Prop :=
  Forall (fun c => Literal.valid_char c = true /\
                   c <> 10 /\ c <> 13 /\ c <> 92 /\ c <> q) s.

Definition plain_config (q : N) (c : Config) : Prop :=
  plain_text q (audience c) /\ plain_text q (level c) /\
  plain_text q (grading c) /\ plain_text q (themes c).

(** No occurrence of the bare fence token (hence of none of the three). *)
Definition fence_free (s : str) : Prop := Py.contains fence s = false.

Definition fence_free_config (c : Config) : Prop :=
  fence_free (audience c) /\ fence_free (level c) /\
  fence_free (grading c) /\ fence_free (themes c).

(** The characters of the three tokens. *)
Definition fence_letter (c : N) : bool :=
  bool_decide (c ∈ fence_python ++ fence_json).

(** The four-field mapping of a profile, as a Python dict. *)
Definition profile_dict (c : Config) : pyobj :=
  PyDict [ (PyStr (lit "audience"), PyStr (audience c));
           (PyStr (lit "level"), PyStr (level c));
           (PyStr (lit "grading"), PyStr (grading c));
           (PyStr (lit "themes"), PyStr (themes c)) ].

Definition clean_config (c : Config) : Config :=
  {| audience := clean_response (audience c);
     level := clean_response (level c);
     grading := clean_response (grading c);
     themes := clean_response (themes c) |}.

(** A runtime whose [eval] has the value and the effect [session_eval]
    gives, wherever that one gives any. *)
Definition agrees_on_fragment (py : Python) : Prop :=
  forall s st st' v,
    session_eval s st = Some (st', v) -> py_eval py s st = (st', Ok v).

(** ** The skeleton lines in the words of the specification *)

(** [enumerate(lines)], counted from [i]. *)
Fixpoint enumerate (i : nat) (lines : list str) : list (nat * str) :=
  match lines with
  | [] => []
  | line :: rest => (i, line) :: enumerate (S i) rest
  end.

(** The lines that contain the separator, each with its position. *)
Definition valid_lines (lines : list str) : list (nat * str) :=
  List.filter (fun p => Py.contains pipe (snd p)) (enumerate 0 lines).

(** The value of a string of decimal digits. *)
Definition nat_of_digits (s : str) : N :=
  fold_left (fun acc d => 10 * acc + (d - 48)) s 0.

(** [t] is [s] without the white space at its two ends. *)
Definition trimmed (s t : str) : Prop :=
  exists l r,
    s = l ++ t ++ r /\
    Forall (fun c => Py.isspace c = true) l /\
    Forall (fun c => Py.isspace c = true) r /\
    (forall c, head t = Some c -> Py.isspace c = false) /\
    (forall c, last t = Some c -> Py.isspace c = false).

(** [g] is the part of [b] before its first separator, or all of [b]. *)
Definition up_to_separator (b g : str) : Prop :=
  (124 ∉ g) /\ (b = g \/ exists rest, b = g ++ 124 :: rest).

(** [d] is the decimal numeral of [n]: digits only, at least one, no
    leading zero unless it is the numeral of zero. *)
Definition decimal (n : nat) (d : str) : Prop :=
  d <> [] /\
  Forall (fun c => 48 <= c <= 57) d /\
  (hd 0 d = 48 -> d = [48]) /\
  nat_of_digits d = N.of_nat n.

(** The lines of a model response: the response without the white space
    at its ends, cut at its line breaks. *)
Definition lines_of (response : str) (lines : list str) : Prop :=
  exists text,
    trimmed response text /\
    lines <> [] /\ Py.join [nl] lines = text /\
    Forall (fun line => nl ∉ line) lines.

(** The entry of a line with a separator, at position [i] among all the
    lines: the week label counts from one, the topic is the text before
    the first separator and the grammar the text up to the next one, both
    trimmed, and the status is pending. *)
Definition entry_of (i : nat) (line : str) (row : Row) : Prop :=
  exists a b g d,
    line = a ++ 124 :: b /\ (124 ∉ a) /\ up_to_separator b g /\
    decimal (i + 1) d /\
    Week row = lit "Week " ++ d /\
    trimmed a (Theme row) /\ trimmed g (Grammar_Focus row) /\
    Status row = PENDING.

(** One entry for each line with a separator and none for the others, in
    the order of the lines. *)
Definition entries_of (lines : list str) (df : DataFrame) : Prop :=
  exists positions,
    StronglySorted lt positions /\
    (forall i, i ∈ positions <-> exists line, lines !! i = Some line /\ 124 ∈ line) /\
    length df = length positions /\
    forall k i, positions !! k = Some i ->
      exists line row,
        lines !! i = Some line /\ df !! k = Some row /\ entry_of i line row.

(** The placeholder collection: 34 generic entries, labelled from one. *)
Definition placeholder_entries (df : DataFrame) : Prop :=
  length df = 34%nat /\
  forall i, (i < 34)%nat ->
    exists d, decimal (i + 1) d /\
      df !! i = Some {| Week := lit "Week " ++ d; Theme := lit "Topic";
                        Grammar_Focus := lit "Grammar"; Status := PENDING |}.

(** ** Session states *)

(** Once the form of step 1 has been submitted, the analysis it read from
    is a non-empty dict. *)
Definition coherent (st : SessionState) : Prop :=
  locked_config st <> None ->
  exists d, analyzed_curriculum st = PyDict d /\ d <> [].

(** ** The parts of the lesson prompt *)

(** The prompt up to its instruction line: context, week, notes and
    accessibility lines, and the indentation of the instruction line. *)
Definition prompt_head (py : Python) (config : option Config)
    (week topic grammar notes : str) (access : bool) : str :=
  nl :: lit "        CONTEXT: " ++ show_config py config ++
  nl :: lit "        WEEK: " ++ week ++ lit " | TOPIC: " ++ topic ++
        lit " | GRAMMAR: " ++ grammar ++
  nl :: lit "        TEACHER NOTES: " ++ notes ++
  nl :: lit "        ACCESSIBILITY: " ++ access_mode access ++
  nl :: lit "        ".

(** From the end of the instruction line to the start of the source text. *)
Definition prompt_middle : str :=
  nl :: lit "        " ++
  nl :: lit "        SOURCE MATERIAL:" ++
  nl :: lit "        ".

(** After the source text. *)
Definition prompt_tail : str :=
  lit " " ++ nl :: nl ::
  lit "        OUTPUT: Generte XML with <TEACHER>, <STUDENT_TEXT> (in Greek), <STUDENT_EXERCISES> (in Greek)." ++
  nl :: lit "        ".

(** ** The lesson regions in the words of the specification *)

(** The position of the first occurrence of [sub] in [s]. *)
Fixpoint str_find (sub s : str) : option nat :=
  if Py.startswith sub s then Some 0%nat
  else
    match s with
    | [] => None
    | _ :: r =>
        match str_find sub r with
        | Some i => Some (S i)
        | None => None
        end
    end.

(** Opening tag, then the shortest content (line breaks included) up to the
    next closing tag: the region after the first opening tag, cut at the
    first closing tag that follows it. *)
Definition delimited_region (open close s : str) : option str :=
  match str_find open s with
  | None => None
  | Some i =>
      let after := drop (i + length open) s in
      match str_find close after with
      | None => None
      | Some j => Some (take j after)
      end
  end.

Definition section_or_marker (tag : string) (marker raw : str) : str :=
  match delimited_region (lit "<" ++ lit tag ++ lit ">")
                         (lit "</" ++ lit tag ++ lit ">") raw with
  | Some g => Py.strip g
  | None => marker
  end.

(** ** Widgets of the runs used in the examples *)

Definition press (b : Button) (w : Widgets) : Widgets :=
  {| api_key := api_key w;
     uploaded_curriculum := uploaded_curriculum w;
     clicked := Some b;
     audience_input := audience_input w;
     level_input := level_input w;
     grading_input := grading_input w;
     themes_input := themes_input w;
     data_editor := data_editor w;
     week_choice := week_choice w;
     custom_topic := custom_topic w;
     custom_grammar := custom_grammar w;
     accessibility := accessibility w;
     teacher_notes := teacher_notes w;
     uploaded_context := uploaded_context w;
     gemini := gemini w |}.

Definition release (w : Widgets) : Widgets :=
  {| api_key := api_key w;
     uploaded_curriculum := uploaded_curriculum w;
     clicked := None;
     audience_input := audience_input w;
     level_input := level_input w;
     grading_input := grading_input w;
     themes_input := themes_input w;
     data_editor := data_editor w;
     week_choice := week_choice w;
     custom_topic := custom_topic w;
     custom_grammar := custom_grammar w;
     accessibility := accessibility w;
     teacher_notes := teacher_notes w;
     uploaded_context := uploaded_context w;
     gemini := gemini w |}.

Definition with_upload (f : UploadedFile) (w : Widgets) : Widgets :=
  {| api_key := api_key w;
     uploaded_curriculum := Some f;
     clicked := clicked w;
     audience_input := audience_input w;
     level_input := level_input w;
     grading_input := grading_input w;
     themes_input := themes_input w;
     data_editor := data_editor w;
     week_choice := week_choice w;
     custom_topic := custom_topic w;
     custom_grammar := custom_grammar w;
     accessibility := accessibility w;
     teacher_notes := teacher_notes w;
     uploaded_context := uploaded_context w;
     gemini := gemini w |}.

Definition with_form (c : Config) (w : Widgets) : Widgets :=
  {| api_key := api_key w;
     uploaded_curriculum := uploaded_curriculum w;
     clicked := clicked w;
     audience_input := audience c;
     level_input := level c;
     grading_input := grading c;
     themes_input := themes c;
     data_editor := data_editor w;
     week_choice := week_choice w;
     custom_topic := custom_topic w;
     custom_grammar := custom_grammar w;
     accessibility := accessibility w;
     teacher_notes := teacher_notes w;
     uploaded_context := uploaded_context w;
     gemini := gemini w |}.

Definition with_sources (fs : list UploadedFile) (w : Widgets) : Widgets :=
  {| api_key := api_key w;
     uploaded_curriculum := uploaded_curriculum w;
     clicked := clicked w;
     audience_input := audience_input w;
     level_input := level_input w;
     grading_input := grading_input w;
     themes_input := themes_input w;
     data_editor := data_editor w;
     week_choice := week_choice w;
     custom_topic := custom_topic w;
     custom_grammar := custom_grammar w;
     accessibility := accessibility w;
     teacher_notes := teacher_notes w;
     uploaded_context := fs;
     gemini := gemini w |}.

Definition pdf_file (file_name : string) (pages : list str) : UploadedFile :=
  {| name := lit file_name; type := lit "application/pdf";
     pdf_pages := Some pages; utf8_text := None |}.

Definition text_file (file_name : string) (content : str) : UploadedFile :=
  {| name := lit file_name; type := lit "text/plain";
     pdf_pages := None; utf8_text := Some content |}.

Definition sample_config : Config :=
  {| audience := lit "Grade 7 heritage speakers";
     level := lit "A2";
     grading := lit "Reads short texts";
     themes := lit "Myths, Geography" |}.

Definition compact : Layout :=
  {| quote := 34; indent := []; gap := lit " "; closing := [] |}.

Definition pretty : Layout :=
  {| quote := 34; indent := nl :: lit "    "; gap := lit " "; closing := [nl] |}.

Definition other_config : Config :=
  {| audience := lit "Grade 9";
     level := lit "B1";
     grading := lit "Writes short texts";
     themes := lit "History" |}.

(** A profile whose level is written with fence tokens inside. *)
Definition fenced_config : Config :=
  {| audience := lit "Grade 7";
     level := lit "A2 ```B1```";
     grading := lit "Reads short texts";
     themes := lit "Myths" |}.

Definition secret : str := lit "secret".

Definition curriculum_pdf : UploadedFile :=
  pdf_file "kursplan.pdf" [lit "Kursplan i modersmal"].

Definition analyze_click (reply : result str) : Widgets :=
  press Analyze_Document (with_upload curriculum_pdf (idle secret reply)).

Definition lock_click (c : Config) : Widgets :=
  press Lock_Configuration (with_form c (idle secret (Ok []))).

Definition skeleton_click (reply : result str) : Widgets :=
  press Generate_Skeleton (idle secret reply).

Definition reset_click : Widgets :=
  press Reset_Syllabus (idle secret (Ok [])).

Definition lesson_click (fs : list UploadedFile) (reply : result str) : Widgets :=
  press Generate_Lesson_Materials (with_sources fs (idle secret reply)).

Definition quota_exceeded : exn := ModelError (lit "429 quota exceeded").

(** The state after the sample profile has been analysed and locked. *)
Definition locked_state : SessionState :=
  {| locked_config := Some sample_config;
     syllabus_df := None;
     generated_lessons := ∅;
     analyzed_curriculum := profile_dict sample_config |}.

Definition sample_plan : DataFrame :=
  [ {| Week := lit "Week 1"; Theme := lit "Myths: Zeus";
       Grammar_Focus := lit "Noun Gender"; Status := PENDING |};
    {| Week := lit "Week 2"; Theme := lit "Geography: Athens";
       Grammar_Focus := lit "Adjectives"; Status := PENDING |} ].

(** The same state with a two-week plan. *)
Definition planned_state : SessionState :=
  set_syllabus_df (Some sample_plan) locked_state.

(** Ten skeleton lines, each with a separator. *)
Definition ten_lines : str :=
  Py.join [nl]
    [ lit "Myths: Zeus | Noun Gender"; lit "Geography: Athens | Adjectives";
      lit "Family | Present Tense"; lit "School | Articles";
      lit "Food | Plural"; lit "Seasons | Past Tense";
      lit "Travel | Prepositions"; lit "Music | Pronouns";
      lit "Sports | Future Tense"; lit "Easter | Imperative" ].

(** Three lines of which the second has no separator, with white space
    around the text and around the fields. *)
Definition gapped_lines : str :=
  lit "  Myths: Zeus |  Noun Gender " ++ nl :: lit "Week two: revision" ++
  nl :: lit "Food | Plural | extra" ++ [nl].

(** A source text longer than the 20000 characters the prompt keeps. *)
Definition long_source : str := repeat 97 (N.to_nat 20000) ++ lit "TAIL".

(** A response that is an expression with an effect: it stores a lessons
    dict in the session state and has the value of a four-key profile. *)
Definition injected_response : str :=
  lit "st.session_state.__setitem__('generated_lessons', {'Week 99': 'x'}) or {'audience': 'a', 'level': 'b', 'grading': 'c', 'themes': 'd'}".

Definition injected_profile : Config :=
  {| audience := lit "a"; level := lit "b"; grading := lit "c"; themes := lit "d" |}.

(** An uploaded text file with nothing in it. *)
Definition empty_notes : UploadedFile := text_file "notes.txt" [].

(** A response that spells three backticks with escapes. *)
Definition escaped_response : str :=
  lit "{" ++ quoted "audience" ++ lit ": " ++ quoted "\x60\x60\x60" ++ lit ", " ++
  quoted "level" ++ lit ": " ++ quoted "A2" ++ lit ", " ++
  quoted "grading" ++ lit ": " ++ quoted "E" ++ lit ", " ++
  quoted "themes" ++ lit ": " ++ quoted "Myths" ++ lit "}".

(** * Properties *)

(** ** Python string operations *)

Section StringFacts.

Implicit Types (s p old new a b : str) (c : N).

Lemma startswith_app p s : Py.startswith p (p ++ s) = true.
Proof.
  induction p as [|x p IH]; simpl; [done|].
  by rewrite N.eqb_refl, IH.
Qed.

Lemma startswith_split p s :
  Py.startswith p s = true -> s = p ++ drop (length p) s.
Proof.
  revert s; induction p as [|x p IH]; intros [|y s] H; simpl in *; try done.
  apply andb_true_iff in H as [Hxy Hp].
  apply N.eqb_eq in Hxy as ->. f_equal. by apply IH.
Qed.

Lemma startswith_length p s :
  Py.startswith p s = true -> (length p <= length s)%nat.
Proof.
  revert s; induction p as [|x p IH]; intros [|y s] H; simpl in *; try done; try lia.
  apply andb_true_iff in H as [_ Hp]. apply IH in Hp. lia.
Qed.

Lemma startswith_prefix p q s :
  Py.startswith (p ++ q) s = true -> Py.startswith p s = true.
Proof.
  revert s; induction p as [|x p IH]; intros [|y s] H; simpl in *; try done.
  apply andb_true_iff in H as [-> Hp]. simpl. by apply IH.
Qed.

(** A character that is not in the pattern cannot be inside a match. *)
Lemma startswith_sep old a c b :
  old <> [] -> c ∉ old ->
  Py.startswith old (a ++ c :: b) = Py.startswith old a.
Proof.
  revert a; induction old as [|o old IH]; intros a Hne Hc; [done|].
  apply not_elem_of_cons in Hc as [Hco Hc].
  destruct a as [|x a]; simpl.
  - replace (o =? c) with false; [done|].
    symmetry. apply N.eqb_neq. congruence.
  - destruct old as [|o' old']; [done|].
    f_equal. by apply IH.
Qed.

Lemma contains_nil old : old <> [] -> Py.contains old [] = false.
Proof. by destruct old. Qed.

Lemma contains_sep old a c b :
  old <> [] -> c ∉ old ->
  Py.contains old (a ++ c :: b) = Py.contains old a || Py.contains old b.
Proof.
  intros Hne Hc. induction a as [|x a IH].
  - rewrite contains_nil by done. simpl.
    change (c :: b) with ([] ++ c :: b).
    rewrite startswith_sep by done.
    by destruct old.
  - change ((x :: a) ++ c :: b) with (x :: (a ++ c :: b)).
    cbn [Py.contains]. rewrite IH.
    change (x :: (a ++ c :: b)) with ((x :: a) ++ c :: b).
    rewrite startswith_sep by done.
    by rewrite orb_assoc.
Qed.

Lemma contains_prefix p q s :
  Py.contains (p ++ q) s = true -> Py.contains p s = true.
Proof.
  induction s as [|x s IH]; cbn [Py.contains]; intros H.
  - rewrite orb_false_r in *. by eapply startswith_prefix.
  - apply orb_true_iff in H as [H|H].
    + by rewrite (startswith_prefix _ _ _ H).
    + rewrite IH by done. by rewrite orb_true_r.
Qed.

Lemma contains_startswith sub s :
  Py.startswith sub s = true -> Py.contains sub s = true.
Proof. intros H. destruct s; cbn [Py.contains]; by rewrite H. Qed.

Lemma contains_app_intro sub a b : Py.contains sub (a ++ sub ++ b) = true.
Proof.
  induction a as [|x a IH].
  - simpl. apply contains_startswith, startswith_app.
  - change ((x :: a) ++ sub ++ b) with (x :: (a ++ sub ++ b)).
    cbn [Py.contains]. by rewrite IH, orb_true_r.
Qed.

(** [sub in s] holds exactly when [s] has [sub] somewhere inside. *)
Lemma contains_split sub s :
  Py.contains sub s = true <-> exists a b, s = a ++ sub ++ b.
Proof.
  split.
  - induction s as [|x s IH]; cbn [Py.contains]; intros H.
    + rewrite orb_false_r in H. apply startswith_split in H. by exists [], (drop (length sub) []).
    + apply orb_true_iff in H as [H|H].
      * apply startswith_split in H. by exists [], (drop (length sub) (x :: s)).
      * destruct (IH H) as (a & b & ->). by exists (x :: a), b.
  - intros (a & b & ->). apply contains_app_intro.
Qed.

Lemma contains_inside sub pre s post :
  Py.contains sub s = true -> Py.contains sub (pre ++ s ++ post) = true.
Proof.
  intros (a & b & ->)%contains_split. apply contains_split.
  exists (pre ++ a), (b ++ post). by rewrite <- !app_assoc.
Qed.


Lemma replace_from_sep old new a c b k :
  old <> [] -> c ∉ old -> (k <= length a)%nat ->
  Py.replace_from old new k (a ++ c :: b) =
  Py.replace_from old new k a ++ c :: Py.replace_from old new 0 b.
Proof.
  intros Hne Hc. revert k. induction a as [|x a IH]; intros k Hk.
  - assert (k = 0)%nat as -> by (simpl in Hk; lia).
    simpl. change (c :: b) with ([] ++ c :: b) at 1.
    rewrite startswith_sep by done.
    by destruct old.
  - change ((x :: a) ++ c :: b) with (x :: (a ++ c :: b)).
    destruct k as [|k]; cbn [Py.replace_from].
    + change (x :: (a ++ c :: b)) with ((x :: a) ++ c :: b).
      rewrite startswith_sep by done.
      destruct (Py.startswith old (x :: a)) eqn:E.
      * apply startswith_length in E. simpl in E.
        rewrite IH by lia. by rewrite <- app_assoc.
      * rewrite IH by lia. done.
    + apply IH. simpl in Hk. lia.
Qed.

Lemma replace_from_absent old new s :
  old <> [] -> Py.contains old s = false -> Py.replace_from old new 0 s = s.
Proof.
  intros Hne. induction s as [|x s IH]; [done|].
  cbn [Py.contains Py.replace_from]. intros H.
  apply orb_false_iff in H as [-> H]. f_equal. by apply IH.
Qed.

Lemma replace_sep old new a c b :
  old <> [] -> c ∉ old ->
  Py.replace old new (a ++ c :: b) =
  Py.replace old new a ++ c :: Py.replace old new b.
Proof.
  intros Hne Hc. destruct old as [|o old]; [done|].
  unfold Py.replace. apply replace_from_sep; [done|done|lia].
Qed.

Lemma replace_absent old new s :
  old <> [] -> Py.contains old s = false -> Py.replace old new s = s.
Proof.
  intros Hne H. destruct old as [|o old]; [done|].
  unfold Py.replace. by apply replace_from_absent.
Qed.

(** Deleting occurrences only deletes characters. *)
Lemma replace_from_delete_Forall (P : N -> Prop) old s k :
  Forall P s -> Forall P (Py.replace_from old [] k s).
Proof.
  intros H. revert k. induction H as [|x s Hx Hs IH]; intros k; [constructor|].
  destruct k; cbn [Py.replace_from]; [|apply IH].
  destruct (Py.startswith old (x :: s)); simpl; [apply IH|].
  constructor; [done|apply IH].
Qed.

End StringFacts.

(** ** Removing the fence tokens *)

Section Fences.

Implicit Types (s a b : str) (c : N).

Lemma neq_eqb_false (x y : N) : x <> y -> (y =? x) = false.
Proof. intros H. apply N.eqb_neq. congruence. Qed.

Local Ltac fence_step E :=
  repeat (cbn [Py.replace_from Py.startswith Py.contains andb orb app length Nat.sub];
          rewrite ?E, ?N.eqb_refl).

(** After the last [replace] no run of three backticks is left. *)
Lemma fence_removed_aux n s :
  (length s <= n)%nat ->
  Py.contains fence (Py.replace_from fence [] 0 s) = false /\
  (Py.startswith [96; 96] s = false ->
   Py.startswith [96; 96] (Py.replace_from fence [] 0 s) = false).
Proof.
  change fence with [96; 96; 96].
  revert s. induction n as [|n IH]; intros s Hn.
  { destruct s; [done|simpl in Hn; lia]. }
  destruct s as [|c s]; [done|]. simpl in Hn.
  destruct (N.eq_dec c 96) as [->|Hc].
  2:{ pose proof (neq_eqb_false _ _ Hc) as E.
      destruct (IH s ltac:(lia)) as [IH1 _]. fence_step E. by rewrite IH1. }
  destruct s as [|d s]; [done|]. simpl in Hn.
  destruct (N.eq_dec d 96) as [->|Hd].
  2:{ pose proof (neq_eqb_false _ _ Hd) as E.
      destruct (IH s ltac:(lia)) as [IH1 _]. fence_step E. by rewrite IH1. }
  destruct s as [|e s]; [done|]. simpl in Hn.
  destruct (N.eq_dec e 96) as [->|He].
  2:{ pose proof (neq_eqb_false _ _ He) as E.
      destruct (IH s ltac:(lia)) as [IH1 _]. fence_step E. by rewrite IH1. }
  destruct (IH s ltac:(lia)) as [IH1 _].
  split; [exact IH1|done].
Qed.

Lemma fence_removed s : fence_free (Py.replace fence [] s).
Proof. exact (proj1 (fence_removed_aux (length s) s (le_n _))). Qed.

Lemma fence_free_json s : fence_free s -> Py.contains fence_json s = false.
Proof.
  unfold fence_free. intros H.
  destruct (Py.contains fence_json s) eqn:E; [|done].
  change fence_json with (fence ++ lit "json") in E.
  apply contains_prefix in E. congruence.
Qed.

Lemma fence_free_python s : fence_free s -> Py.contains fence_python s = false.
Proof.
  unfold fence_free. intros H.
  destruct (Py.contains fence_python s) eqn:E; [|done].
  change fence_python with (fence ++ lit "python") in E.
  apply contains_prefix in E. congruence.
Qed.

Lemma clean_response_fence_free s : fence_free s -> clean_response s = s.
Proof.
  intros H. unfold clean_response.
  rewrite (replace_absent fence_json) by (done || by apply fence_free_json).
  rewrite (replace_absent fence_python) by (done || by apply fence_free_python).
  by rewrite replace_absent.
Qed.

Lemma clean_response_sep a c b :
  fence_letter c = false ->
  clean_response (a ++ c :: b) = clean_response a ++ c :: clean_response b.
Proof.
  intros H. apply bool_decide_eq_false in H.
  assert (c ∉ fence_json) by (intros ?; apply H, elem_of_app; by right).
  assert (c ∉ fence_python) by (intros ?; apply H, elem_of_app; by left).
  assert (c ∉ fence).
  { intros ?. apply H, elem_of_app. left.
    change fence_python with (fence ++ lit "python"). apply elem_of_app. by left. }
  unfold clean_response.
  by rewrite !replace_sep.
Qed.

Lemma clean_response_nil : clean_response [] = [].
Proof. reflexivity. Qed.

Lemma no_backtick_fence_free s : Forall (fun c => c <> 96) s -> fence_free s.
Proof.
  unfold fence_free. change fence with [96; 96; 96].
  induction 1 as [|x s Hx Hs IH]; [done|].
  cbn [Py.contains Py.startswith].
  rewrite (neq_eqb_false _ _ Hx). simpl. exact IH.
Qed.

Lemma clean_response_Forall (P : N -> Prop) s :
  Forall P s -> Forall P (clean_response s).
Proof.
  intros H. unfold clean_response, Py.replace. simpl.
  by do 3 apply replace_from_delete_Forall.
Qed.

Lemma clean_response_clean s : fence_free (clean_response s).
Proof. apply fence_removed. Qed.

End Fences.

(** ** The literal evaluator on rendered profiles *)

Section LiteralFacts.

Implicit Types (s rest tail : str) (q c : N) (depth : nat).

Lemma skip_ws_blank ws s : blank_text ws -> Literal.skip_ws (ws ++ s) = Literal.skip_ws s.
Proof. induction 1 as [|x ws Hx _ IH]; simpl; [done|]. by rewrite Hx. Qed.

Lemma lex_string_plain q s rest :
  plain_text q s -> Literal.lex_string q (s ++ q :: rest) = Some (s, rest).
Proof.
  induction 1 as [|x s (H0 & H10 & H13 & H92 & Hq) _ IH]; simpl.
  - by rewrite N.eqb_refl.
  - rewrite (proj2 (N.eqb_neq x q)) by done.
    rewrite (proj2 (N.eqb_neq x 10)) by done.
    rewrite (proj2 (N.eqb_neq x 13)) by done.
    rewrite (proj2 (N.eqb_neq x 92)) by done.
    simpl. by rewrite IH.
Qed.

Lemma no_triple_quote q s rest :
  plain_text q s -> Py.startswith [q] rest = false ->
  Py.startswith [q; q] (s ++ q :: rest) = false.
Proof.
  intros Hs Hrest. destruct Hs as [|x s (_ & _ & _ & _ & Hq) _].
  - simpl. rewrite N.eqb_refl. simpl.
    destruct rest as [|y rest]; [done|]. simpl in Hrest.
    by rewrite andb_true_r in Hrest |- *.
  - simpl. by rewrite (neq_eqb_false _ _ Hq).
Qed.

Lemma parse_value_string f depth q s rest :
  q = 34 \/ q = 39 -> plain_text q s -> Py.startswith [q] rest = false ->
  Literal.parse_value (S f) depth (render_string q s ++ rest) = Some (PyStr s, rest).
Proof.
  intros Hq Hs Hrest.
  unfold render_string. rewrite <- app_comm_cons, <- app_assoc.
  change ([q] ++ rest) with (q :: rest).
  cbn [Literal.parse_value].
  replace ((q =? 34) || (q =? 39)) with true by (by destruct Hq as [-> | ->]).
  by rewrite no_triple_quote, lex_string_plain.
Qed.

Lemma parse_value_brace f depth r :
  Literal.parse_value (S f) (S depth) (123 :: r) =
  match Literal.parse_pairs f depth (Literal.skip_ws r) [] with
  | Some (d, rest) => Some (PyDict d, rest)
  | None => None
  end.
Proof. reflexivity. Qed.

Lemma skip_ws_quote q r : q = 34 \/ q = 39 -> Literal.skip_ws (q :: r) = q :: r.
Proof. by intros [-> | ->]. Qed.

Lemma skip_ws_render_string q s r :
  q = 34 \/ q = 39 ->
  Literal.skip_ws (render_string q s ++ r) = render_string q s ++ r.
Proof. intros Hq. unfold render_string. by rewrite <- app_comm_cons, skip_ws_quote. Qed.

Lemma blank_not_quote q ws tail :
  q = 34 \/ q = 39 -> blank_text ws ->
  Py.startswith [q] (ws ++ 125 :: tail) = false.
Proof.
  intros Hq [|x ws' Hx _].
  - by destruct Hq as [-> | ->].
  - simpl. rewrite andb_true_r. apply N.eqb_neq. intros <-.
    by destruct Hq as [-> | ->].
Qed.

Lemma parse_pairs_step f depth c r acc :
  Literal.parse_pairs (S f) depth (c :: r) acc =
  if c =? 125 then Some (acc, r)
  else
    match Literal.parse_value f depth (c :: r) with
    | None => None
    | Some (k, rest) =>
        match Literal.skip_ws rest with
        | [] => None
        | colon :: r1 =>
            if colon =? 58 then
              match Literal.parse_value f depth (Literal.skip_ws r1) with
              | None => None
              | Some (v, rest1) =>
                  if hashable k then
                    match Literal.skip_ws rest1 with
                    | [] => None
                    | d :: r2 =>
                        if d =? 44
                        then Literal.parse_pairs f depth (Literal.skip_ws r2) (dict_set acc k v)
                        else if d =? 125 then Some (dict_set acc k v, r2)
                        else None
                    end
                  else None
              end
            else None
        end
    end.
Proof. reflexivity. Qed.

Local Ltac side Hq := first [done | by destruct Hq as [-> | ->]].

(** One [key: value] pair followed by a comma. *)
Lemma parse_pairs_comma f depth q key val gap ind next acc :
  q = 34 \/ q = 39 -> plain_text q key -> plain_text q val ->
  blank_text gap -> blank_text ind ->
  Literal.parse_pairs (S (S f)) depth
    (render_string q key ++ lit ":" ++ gap ++ render_string q val ++
     lit "," ++ ind ++ next) acc =
  Literal.parse_pairs (S f) depth (Literal.skip_ws next) (dict_set acc (PyStr key) (PyStr val)).
Proof.
  intros Hq Hk Hv Hg Hi.
  unfold render_string at 1. rewrite <- app_comm_cons, parse_pairs_step.
  replace (q =? 125) with false by (by destruct Hq as [-> | ->]).
  change (q :: (key ++ [q]) ++ ?r) with (render_string q key ++ r).
  rewrite parse_value_string by side Hq.
  change (lit ":" ++ ?r) with (58 :: r).
  cbn [Literal.skip_ws Literal.is_ws N.eqb orb Pos.eqb].
  rewrite skip_ws_blank by done.
  unfold render_string at 1. rewrite <- app_comm_cons, skip_ws_quote by done.
  change (q :: (val ++ [q]) ++ ?r) with (render_string q val ++ r).
  rewrite parse_value_string by side Hq.
  change (lit "," ++ ?r) with (44 :: r).
  cbn [Literal.skip_ws Literal.is_ws N.eqb orb Pos.eqb hashable].
  by rewrite skip_ws_blank.
Qed.

(** The last pair, followed by the closing brace. *)
Lemma parse_pairs_close f depth q key val gap cl tail acc :
  q = 34 \/ q = 39 -> plain_text q key -> plain_text q val ->
  blank_text gap -> blank_text cl ->
  Literal.parse_pairs (S (S f)) depth
    (render_string q key ++ lit ":" ++ gap ++ render_string q val ++
     cl ++ lit "}" ++ tail) acc =
  Some (dict_set acc (PyStr key) (PyStr val), tail).
Proof.
  intros Hq Hk Hv Hg Hc.
  unfold render_string at 1. rewrite <- app_comm_cons, parse_pairs_step.
  replace (q =? 125) with false by (by destruct Hq as [-> | ->]).
  change (q :: (key ++ [q]) ++ ?r) with (render_string q key ++ r).
  rewrite parse_value_string by side Hq.
  change (lit ":" ++ ?r) with (58 :: r).
  cbn [Literal.skip_ws Literal.is_ws N.eqb orb Pos.eqb].
  rewrite skip_ws_blank by done.
  unfold render_string at 1. rewrite <- app_comm_cons, skip_ws_quote by done.
  change (q :: (val ++ [q]) ++ ?r) with (render_string q val ++ r).
  change (lit "}" ++ tail) with (125 :: tail).
  rewrite parse_value_string by (done || by apply blank_not_quote).
  rewrite skip_ws_blank by done.
  reflexivity.
Qed.

Lemma plain_key q (key : string) :
  q = 34 \/ q = 39 ->
  forallb (fun c => Literal.valid_char c && negb (bool_decide (c ∈ [10; 13; 92; 34; 39]))) (lit key) = true ->
  plain_text q (lit key).
Proof.
  intros Hq H. apply Forall_forall. intros c Hc.
  rewrite forallb_forall in H. apply list_elem_of_In in Hc. apply H in Hc.
  apply andb_true_iff in Hc as [Hv Hc].
  apply negb_true_iff, bool_decide_eq_false in Hc.
  split; [done|].
  repeat split; intros ->; apply Hc; destruct Hq as [-> | ->]; set_solver.
Qed.

(** A rendered profile evaluates to its dict. *)
Lemma parse_value_render f depth ly (cfg : Config) tail :
  well_formed ly -> plain_config (quote ly) cfg ->
  Literal.parse_value (S (S (S (S (S (S f)))))) (S depth) (render ly cfg ++ tail) =
  Some (profile_dict cfg, tail).
Proof.
  intros (Hq & Hi & Hg & Hc) (Ha & Hl & Hgr & Ht).
  unfold render. rewrite <- !app_assoc.
  change (lit "{" ++ ?r) with (123 :: r).
  rewrite parse_value_brace, skip_ws_blank by done.
  rewrite skip_ws_render_string, parse_pairs_comma by (done || by apply plain_key).
  rewrite skip_ws_render_string, parse_pairs_comma by (done || by apply plain_key).
  rewrite skip_ws_render_string, parse_pairs_comma by (done || by apply plain_key).
  rewrite skip_ws_render_string, parse_pairs_close by (done || by apply plain_key).
  reflexivity.
Qed.

End LiteralFacts.

(** ** The calibration parser on rendered profiles *)

Section CalibrationFacts.

Implicit Types (s : str) (q : N) (ly : Layout) (cfg : Config).

Lemma blank_no_backtick ws : blank_text ws -> Forall (fun c => c <> 96) ws.
Proof. intros H. eapply Forall_impl; [exact H|]. by intros c Hc ->. Qed.

Lemma is_ws_valid c : Literal.is_ws c = true -> Literal.valid_char c = true.
Proof.
  unfold Literal.is_ws. rewrite !orb_true_iff, !N.eqb_eq.
  by intros [[[-> | ->] | ->] | ->].
Qed.

Lemma blank_valid ws : blank_text ws -> Forall (fun c => Literal.valid_char c = true) ws.
Proof. intros H. eapply Forall_impl; [exact H|]. apply is_ws_valid. Qed.

Lemma plain_valid q s : plain_text q s -> Forall (fun c => Literal.valid_char c = true) s.
Proof. intros H. eapply Forall_impl; [exact H|]. by intros c [? _]. Qed.

(** Boolean checks for concrete texts. *)
Lemma plain_text_check q s :
  forallb (fun c => Literal.valid_char c && negb (bool_decide (c ∈ [10; 13; 92; q]))) s = true ->
  plain_text q s.
Proof.
  intros H. apply Forall_forall. intros c Hc.
  rewrite forallb_forall in H. apply list_elem_of_In in Hc. apply H in Hc.
  apply andb_true_iff in Hc as [Hv Hc].
  apply negb_true_iff, bool_decide_eq_false in Hc.
  split; [done|].
  repeat split; intros ->; apply Hc; set_solver.
Qed.

Lemma blank_text_check ws : forallb Literal.is_ws ws = true -> blank_text ws.
Proof.
  intros H. apply Forall_forall. intros c Hc.
  rewrite forallb_forall in H. apply H. by apply list_elem_of_In.
Qed.

Lemma well_formed_check ly :
  bool_decide (quote ly = 34 \/ quote ly = 39) &&
  forallb Literal.is_ws (indent ly) && forallb Literal.is_ws (gap ly) &&
  forallb Literal.is_ws (closing ly) = true ->
  well_formed ly.
Proof.
  intros (((Hq & Hi)%andb_true_iff & Hg)%andb_true_iff & Hc)%andb_true_iff.
  apply bool_decide_eq_true in Hq.
  repeat split; [done|..]; by apply blank_text_check.
Qed.

Lemma plain_config_check q cfg :
  forallb (fun c => Literal.valid_char c && negb (bool_decide (c ∈ [10; 13; 92; q])))
    (audience cfg ++ level cfg ++ grading cfg ++ themes cfg) = true ->
  plain_config q cfg.
Proof.
  rewrite !forallb_app, !andb_true_iff. intros (Ha & Hl & Hg & Ht).
  repeat split; by apply plain_text_check.
Qed.

Lemma clean_response_no_backtick s :
  Forall (fun c => c <> 96) s -> clean_response s = s.
Proof. intros H. by apply clean_response_fence_free, no_backtick_fence_free. Qed.

Lemma clean_quoted q pre s post :
  q = 34 \/ q = 39 ->
  clean_response (pre ++ render_string q s ++ post) =
  clean_response pre ++ render_string q (clean_response s) ++ clean_response post.
Proof.
  intros Hq. assert (fence_letter q = false) by (by destruct Hq as [-> | ->]).
  unfold render_string.
  rewrite <- !app_comm_cons, <- !app_assoc.
  change ([q] ++ ?r) with (q :: r).
  by rewrite !clean_response_sep.
Qed.

Lemma clean_piece (p : string) ws :
  forallb (fun c => negb (c =? 96)) (lit p) = true ->
  blank_text ws -> clean_response (lit p ++ ws) = lit p ++ ws.
Proof.
  intros Hp Hws. apply clean_response_no_backtick, Forall_app. split.
  - apply Forall_forall. intros c Hc. rewrite forallb_forall in Hp.
    apply list_elem_of_In, Hp, negb_true_iff in Hc. by apply N.eqb_neq.
  - by apply blank_no_backtick.
Qed.

Lemma clean_closing ws :
  blank_text ws -> clean_response (ws ++ lit "}") = ws ++ lit "}".
Proof.
  intros Hws. apply clean_response_no_backtick, Forall_app. split.
  - by apply blank_no_backtick.
  - by repeat constructor.
Qed.

(** Cleaning a rendered profile cleans its four values and nothing else. *)
Lemma clean_render ly cfg :
  well_formed ly ->
  clean_response (render ly cfg) = render ly (clean_config cfg).
Proof.
  intros (Hq & Hi & Hg & Hc). unfold render.
  rewrite !clean_quoted by done.
  rewrite !clean_piece, clean_closing by done.
  reflexivity.
Qed.

Lemma clean_wrap f body :
  clean_response (wrap f body) = unfenced f (clean_response body).
Proof.
  destruct f; [done|..]; unfold wrap, unfenced.
  all: rewrite clean_response_sep by done.
  all: rewrite clean_response_sep by done.
  all: by rewrite app_comm_cons.
Qed.

Lemma plain_clean_config q cfg :
  plain_config q cfg -> plain_config q (clean_config cfg).
Proof.
  intros (Ha & Hl & Hg & Ht).
  repeat split; by apply clean_response_Forall.
Qed.

Lemma fence_free_clean_config cfg : fence_free_config (clean_config cfg).
Proof. repeat split; apply clean_response_clean. Qed.

Lemma clean_config_fence_free cfg :
  fence_free_config cfg -> clean_config cfg = cfg.
Proof.
  intros (Ha & Hl & Hg & Ht). destruct cfg. unfold clean_config. simpl in *.
  by rewrite !clean_response_fence_free.
Qed.

Lemma valid_forallb s :
  Forall (fun c => Literal.valid_char c = true) s ->
  negb (forallb Literal.valid_char s) = false.
Proof.
  induction 1 as [|x s Hx _ IH]; [done|]. cbn [forallb].
  rewrite Hx. exact IH.
Qed.

Lemma render_valid ly cfg :
  well_formed ly -> plain_config (quote ly) cfg ->
  Forall (fun c => Literal.valid_char c = true) (render ly cfg).
Proof.
  intros (Hq & Hi & Hg & Hc) (Ha & Hl & Hgr & Ht).
  assert (Literal.valid_char (quote ly) = true) by (by destruct Hq as [-> | ->]).
  apply blank_valid in Hi, Hg, Hc.
  apply plain_valid in Ha, Hl, Hgr, Ht.
  unfold render, render_string.
  repeat first
    [ done
    | apply Forall_app; split
    | apply Forall_cons; split
    | apply Forall_nil ].
Qed.

Lemma render_head ly cfg : exists r, render ly cfg = 123 :: r.
Proof. unfold render. rewrite <- app_assoc. by eexists. Qed.

Lemma render_length ly cfg : (2 <= length (render ly cfg))%nat.
Proof.
  unfold render, render_string. rewrite !length_app.
  change (length (lit "{")) with 1%nat. cbn [length]. lia.
Qed.

Lemma parse_value_render_fuel n ly cfg tail :
  (6 <= n)%nat -> well_formed ly -> plain_config (quote ly) cfg ->
  Literal.parse_value n Literal.max_depth (render ly cfg ++ tail) =
  Some (profile_dict cfg, tail).
Proof.
  intros Hn. do 6 (destruct n as [|n]; [lia|]). apply parse_value_render.
Qed.

Lemma parse_value_render_nil n ly cfg :
  (6 <= n)%nat -> well_formed ly -> plain_config (quote ly) cfg ->
  Literal.parse_value n Literal.max_depth (render ly cfg) = Some (profile_dict cfg, []).
Proof.
  intros. rewrite <- (app_nil_r (render ly cfg)). by apply parse_value_render_fuel.
Qed.

(** The evaluator on a rendered profile, inside or outside a fence. *)
Lemma eval_unfenced_render f ly cfg :
  well_formed ly -> plain_config (quote ly) cfg ->
  Literal.eval (unfenced f (render ly cfg)) = Some (profile_dict cfg).
Proof.
  intros Hly Hcfg.
  pose proof (render_valid ly cfg Hly Hcfg) as Hnul.
  pose proof (render_length ly cfg) as Hlen.
  destruct (render_head ly cfg) as [r Hr].
  unfold Literal.eval.
  destruct f; unfold unfenced.
  1:{ rewrite valid_forallb by done.
      rewrite Hr at 1. cbn [Literal.lstrip_blank Literal.leading N.eqb orb Pos.eqb].
      rewrite <- Hr.
      by rewrite parse_value_render_nil by (done || lia). }
  all: rewrite valid_forallb by (apply Forall_cons; split; [done|];
                                  apply Forall_app; split; [done|by repeat constructor]).
  all: cbn [Literal.lstrip_blank Literal.leading N.eqb orb Pos.eqb nl].
  all: rewrite Hr at 1; cbn [app Literal.leading N.eqb orb Pos.eqb].
  all: change (123 :: r ++ [nl]) with ((123 :: r) ++ [nl]); rewrite <- Hr.
  all: rewrite parse_value_render_fuel; [done| |done|done].
  all: cbn [length]; rewrite length_app; lia.
Qed.

(** The calibration parser on a response of the expected shape: the
    session state is left as it was and the value is the dict of the
    profile, with the fence tokens inside its values gone. *)
Lemma parse_calibration_render py f ly cfg st :
  agrees_on_fragment py -> well_formed ly -> plain_config (quote ly) cfg ->
  parse_calibration py (wrap f (render ly cfg)) st =
  (st, profile_dict (clean_config cfg)).
Proof.
  intros Hpy Hly Hcfg. unfold parse_calibration.
  rewrite clean_wrap, clean_render by done.
  erewrite Hpy; [done|].
  unfold session_eval.
  by rewrite eval_unfenced_render by (done || by apply plain_clean_config).
Qed.

End CalibrationFacts.

(** ** The skeleton parser *)

Section SkeletonFacts.

Implicit Types (s a b line : str) (c : N) (lines : list str).

Lemma contains_single c s : Py.contains [c] s = true <-> c ∈ s.
Proof.
  induction s as [|x s IH].
  - split; [done|]. by intros ?%elem_of_nil.
  - cbn [Py.contains Py.startswith].
    rewrite andb_true_r, orb_true_iff, elem_of_cons, N.eqb_eq.
    split; (intros [?|?]; [by left|right; by apply IH]).
Qed.

Lemma contains_single_false c s : Py.contains [c] s = false <-> c ∉ s.
Proof. rewrite <- contains_single. by destruct (Py.contains [c] s). Qed.

Lemma split_from_nonempty sep k s : Py.split_from sep k s <> [].
Proof.
  revert k. induction s as [|x s IH]; intros k; [done|].
  destruct k; cbn [Py.split_from]; [|apply IH].
  destruct (Py.startswith sep (x :: s)); [done|].
  by destruct (Py.split_from sep 0 s).
Qed.

(** A text without the separator is one piece. *)
Lemma split_absent c s : c ∉ s -> Py.split [c] s = [s].
Proof.
  unfold Py.split. induction s as [|x s IH]; [done|].
  intros [Hx Hs]%not_elem_of_cons. cbn [Py.split_from Py.startswith].
  rewrite (neq_eqb_false x c) by done. simpl. by rewrite IH.
Qed.

(** The first piece ends at the first separator. *)
Lemma split_first c a b :
  c ∉ a -> Py.split [c] (a ++ c :: b) = a :: Py.split [c] b.
Proof.
  unfold Py.split. induction a as [|x a IH].
  - intros _. cbn [app Py.split_from Py.startswith]. by rewrite N.eqb_refl.
  - intros [Hx Ha]%not_elem_of_cons.
    cbn [app Py.split_from Py.startswith].
    rewrite (neq_eqb_false x c) by done. simpl. by rewrite IH.
Qed.

Lemma elem_split c s : c ∈ s -> exists a b, s = a ++ c :: b /\ c ∉ a.
Proof.
  induction s as [|x s IH]; [by intros ?%elem_of_nil|].
  intros H. destruct (decide (x = c)) as [->|Hne].
  - exists [], s. split; [done|]. apply not_elem_of_nil.
  - apply elem_of_cons in H as [->|H]; [done|].
    destruct (IH H) as (a & b & -> & Ha).
    exists (x :: a), b. split; [done|]. apply not_elem_of_cons. split; [congruence|done].
Qed.

(** Splitting loses nothing: the pieces joined by the separator are the
    text, and no piece contains the separator. *)
Lemma join_split c s :
  Py.join [c] (Py.split [c] s) = s /\ Forall (fun p => c ∉ p) (Py.split [c] s).
Proof.
  induction s as [s IH] using (induction_ltof1 _ (@length N)). unfold ltof in IH.
  destruct (decide (c ∈ s)) as [Hin|Hout].
  - destruct (elem_split c s Hin) as (a & b & -> & Ha).
    rewrite split_first by done.
    destruct (IH b) as [IH1 IH2]; [rewrite length_app; simpl; lia|].
    split; [|by constructor].
    cbn [Py.join]. pose proof (split_from_nonempty [c] 0 b) as Hne.
    unfold Py.split in *. destruct (Py.split_from [c] 0 b) eqn:E; [done|].
    by rewrite IH1.
  - rewrite split_absent by done. split; [done|]. by repeat constructor.
Qed.

Lemma parse_lines_spec i lines acc :
  parse_lines i lines acc =
  acc ++ map (fun p => row_of_line (fst p) (snd p))
           (List.filter (fun p => Py.contains pipe (snd p)) (enumerate i lines)).
Proof.
  revert i acc. induction lines as [|line lines IH]; intros i acc.
  - simpl. by rewrite app_nil_r.
  - cbn [parse_lines enumerate List.filter snd]. rewrite IH.
    destruct (Py.contains pipe line); [|done].
    by rewrite <- app_assoc.
Qed.

Lemma elem_of_enumerate k lines i line :
  (i, line) ∈ enumerate k lines <->
  exists j, i = (k + j)%nat /\ lines !! j = Some line.
Proof.
  revert k. induction lines as [|l lines IH]; intros k; cbn [enumerate].
  - split; [by intros ?%elem_of_nil|]. by intros (j & _ & ?).
  - rewrite elem_of_cons, IH. split.
    + intros [[= -> ->]|(j & -> & Hj)].
      * exists 0%nat. split; [lia|done].
      * exists (S j). split; [lia|done].
    + intros ([|j] & -> & Hj); simpl in Hj.
      * left. f_equal; [lia|congruence].
      * right. exists j. split; [lia|done].
Qed.

(** The valid lines are the lines with a separator, at their positions. *)
Lemma elem_of_valid_lines lines i line :
  (i, line) ∈ valid_lines lines <->
  lines !! i = Some line /\ Py.contains pipe line = true.
Proof.
  unfold valid_lines.
  rewrite list_elem_of_In, filter_In, <- list_elem_of_In, elem_of_enumerate.
  simpl. split.
  - intros [(j & -> & Hj) H]. done.
  - intros [Hi H]. split; [|done]. by exists i.
Qed.

(** They come in line order. *)
Lemma enumerate_sorted k lines :
  StronglySorted lt (map fst (enumerate k lines)) /\
  Forall (fun i => (k <= i)%nat) (map fst (enumerate k lines)).
Proof.
  revert k. induction lines as [|l lines IH]; intros k; cbn [enumerate map fst].
  - split; constructor.
  - destruct (IH (S k)) as [IH1 IH2]. split.
    + constructor; [done|]. eapply Forall_impl; [exact IH2|]. simpl. lia.
    + constructor; [lia|]. eapply Forall_impl; [exact IH2|]. simpl. lia.
Qed.

Lemma filter_fst_sorted (f : nat * str -> bool) (l : list (nat * str)) :
  StronglySorted lt (map fst l) -> StronglySorted lt (map fst (List.filter f l)).
Proof.
  induction l as [|p l IH]; [done|]. cbn [map List.filter].
  intros H. apply StronglySorted_inv in H as [Hs Hp].
  destruct (f p); [|by apply IH].
  cbn [map]. constructor; [by apply IH|].
  rewrite Forall_forall in Hp |- *. intros i Hi. apply Hp.
  apply list_elem_of_fmap in Hi as (q & -> & Hq).
  apply list_elem_of_fmap. exists q. split; [done|].
  apply list_elem_of_In in Hq. apply filter_In in Hq as [Hq _].
  by apply list_elem_of_In.
Qed.

Lemma valid_lines_sorted lines : StronglySorted lt (map fst (valid_lines lines)).
Proof. apply filter_fst_sorted, enumerate_sorted. Qed.

(** The row of a line [a|b...]: the trimmed text before the first
    separator and the trimmed text up to the next one. *)
Lemma row_of_line_fields i a b :
  Py.contains pipe a = false ->
  row_of_line i (a ++ pipe ++ b) =
  {| Week := week_label i;
     Theme := Py.strip a;
     Grammar_Focus := Py.strip (nth 0 (Py.split pipe b) []);
     Status := PENDING |}.
Proof.
  change pipe with [124]. intros Ha%contains_single_false.
  unfold row_of_line. change pipe with [124].
  change ([124] ++ b) with (124 :: b). rewrite split_first by done.
  pose proof (split_from_nonempty [124] 0 b) as Hne. unfold Py.split in *.
  destruct (Py.split_from [124] 0 b) as [|p ps]; [done|]. done.
Qed.

Lemma row_of_line_two i a b :
  Py.contains pipe a = false -> Py.contains pipe b = false ->
  row_of_line i (a ++ pipe ++ b) =
  {| Week := week_label i; Theme := Py.strip a;
     Grammar_Focus := Py.strip b; Status := PENDING |}.
Proof.
  intros Ha Hb. rewrite row_of_line_fields by done.
  change pipe with [124] in *. apply contains_single_false in Hb.
  by rewrite split_absent.
Qed.

Lemma has_pipe_split line :
  Py.contains pipe line = true ->
  exists a b, line = a ++ pipe ++ b /\ Py.contains pipe a = false.
Proof.
  change pipe with [124]. intros H%contains_single.
  destruct (elem_split _ _ H) as (a & b & -> & Ha).
  exists a, b. split; [done|]. by apply contains_single_false.
Qed.

Lemma fallback_rows_length : length fallback_rows = 34%nat.
Proof. reflexivity. Qed.

Lemma fallback_rows_lookup i :
  (i < 34)%nat -> fallback_rows !! i = Some (placeholder_row i).
Proof.
  intros H. unfold fallback_rows. rewrite list_lookup_fmap, lookup_seq_lt by done.
  done.
Qed.

Lemma build_skeleton_nonempty lines : build_skeleton lines <> [].
Proof. unfold build_skeleton. by destruct (parse_lines 0 lines []). Qed.

Lemma build_skeleton_fallback lines :
  parse_lines 0 lines [] = [] -> build_skeleton lines = fallback_rows.
Proof. unfold build_skeleton. by intros ->. Qed.

Lemma build_skeleton_parsed lines :
  parse_lines 0 lines [] <> [] -> build_skeleton lines = parse_lines 0 lines [].
Proof. unfold build_skeleton. by destruct (parse_lines 0 lines []). Qed.

End SkeletonFacts.

(** ** Decimal rendering of the week number *)

Section DigitFacts.

Lemma nat_of_digits_app s d :
  nat_of_digits (s ++ [d]) = 10 * nat_of_digits s + (d - 48).
Proof. unfold nat_of_digits. by rewrite fold_left_app. Qed.

Lemma digits_spec f n acc :
  n < 10 ^ N.of_nat f ->
  exists ds, Py.digits f n acc = ds ++ acc /\ nat_of_digits ds = n /\
             (0 < n -> ds <> []).
Proof.
  revert n acc. induction f as [|f IH]; intros n acc Hn.
  - exists []. simpl in *. repeat split; [|lia]. unfold nat_of_digits. simpl. lia.
  - cbn [Py.digits]. destruct (N.ltb_spec n 10) as [Hlt|Hge].
    + exists [48 + n mod 10]. repeat split; [|done].
      unfold nat_of_digits. simpl. rewrite N.mod_small by done. lia.
    + destruct (IH (n / 10) ((48 + n mod 10) :: acc)) as (ds & E & Hv & _).
      { apply N.Div0.div_lt_upper_bound.
        rewrite Nat2N.inj_succ, N.pow_succ_r' in Hn. exact Hn. }
      exists (ds ++ [48 + n mod 10]). rewrite E, <- app_assoc. split; [done|].
      split; [|by destruct ds].
      rewrite nat_of_digits_app, Hv.
      clear. pose proof (N.div_mod n 10 ltac:(done)) as H.
      revert H. generalize (n / 10) (n mod 10). intros q r H. lia.
Qed.

(** [str(n)] is read back as [n]. *)
Lemma nat_of_digits_str_of_nat n : nat_of_digits (Py.str_of_nat n) = N.of_nat n.
Proof.
  unfold Py.str_of_nat.
  destruct (digits_spec (S n) (N.of_nat n) []) as (ds & E & Hv & _).
  { rewrite Nat2N.inj_succ, N.pow_succ_r'.
    pose proof (N.pow_gt_lin_r 10 (N.of_nat n) ltac:(lia)) as Hp.
    revert Hp. generalize (10 ^ N.of_nat n). lia. }
  by rewrite E, app_nil_r.
Qed.

Lemma str_of_nat_inj n m : Py.str_of_nat n = Py.str_of_nat m -> n = m.
Proof.
  intros H. apply (f_equal nat_of_digits) in H.
  rewrite !nat_of_digits_str_of_nat in H. lia.
Qed.

(** Distinct positions get distinct week labels. *)
Lemma week_label_inj i j : week_label i = week_label j -> i = j.
Proof.
  unfold week_label. intros H%app_inv_head%str_of_nat_inj. lia.
Qed.

End DigitFacts.

(** ** Trimming, numerals and the lines of a response *)

Section LineFacts.

Implicit Types (s t : str) (c : N).

Lemma lstrip_spec s :
  exists l, s = l ++ Py.lstrip s /\
            Forall (fun c => Py.isspace c = true) l /\
            (forall c, head (Py.lstrip s) = Some c -> Py.isspace c = false).
Proof.
  induction s as [|x s (l & E & Hl & Hh)].
  - exists []. by repeat split.
  - cbn [Py.lstrip]. destruct (Py.isspace x) eqn:Hx.
    + exists (x :: l). split; [by rewrite E at 1|]. split; [by constructor|done].
    + exists []. split; [done|]. split; [done|]. by intros c [= <-].
Qed.

Lemma last_rev_head s : last (rev s) = head s.
Proof. destruct s as [|x s]; [done|]. simpl. apply last_snoc. Qed.

Lemma rstrip_spec s :
  exists r, s = Py.rstrip s ++ r /\
            Forall (fun c => Py.isspace c = true) r /\
            (forall c, last (Py.rstrip s) = Some c -> Py.isspace c = false).
Proof.
  destruct (lstrip_spec (rev s)) as (l & E & Hl & Hh).
  exists (rev l). unfold Py.rstrip. split.
  { rewrite <- rev_app_distr, <- E. by rewrite rev_involutive. }
  split; [by apply Forall_rev|].
  intros c Hc. apply Hh. by rewrite <- last_rev_head.
Qed.

(** [strip] removes the white space at the two ends and nothing else. *)
Lemma strip_trimmed s : trimmed s (Py.strip s).
Proof.
  destruct (lstrip_spec s) as (l & E & Hl & Hh).
  destruct (rstrip_spec (Py.lstrip s)) as (r & E' & Hr & Hlast).
  exists l, r. unfold Py.strip. split; [by rewrite <- E'|].
  split; [done|]. split; [done|]. split; [|done].
  intros c Hc. apply Hh. rewrite E'.
  destruct (Py.rstrip (Py.lstrip s)); [done|]. exact Hc.
Qed.

Lemma strip_elem c s : Py.isspace c = false -> c ∈ Py.strip s <-> c ∈ s.
Proof.
  intros Hc. destruct (strip_trimmed s) as (l & r & E & Hl & Hr & _).
  rewrite E at 2. rewrite !elem_of_app. split; [tauto|].
  rewrite Forall_forall in Hl, Hr.
  intros [H|[H|H]]; [|done|]; [apply Hl in H|apply Hr in H]; congruence.
Qed.

Lemma join_elem c sep (pieces : list str) :
  c <> sep -> c ∈ Py.join [sep] pieces <-> exists p, p ∈ pieces /\ c ∈ p.
Proof.
  intros Hne. induction pieces as [|p ps IH]; cbn [Py.join].
  - split; [by intros ?%elem_of_nil|]. by intros (p & ?%elem_of_nil & _).
  - destruct ps as [|p' ps].
    + split; [intros H; exists p; split; [by left|done]|].
      intros (q & Hq & Hc). by apply list_elem_of_singleton in Hq as ->.
    + rewrite !elem_of_app, IH, list_elem_of_singleton. split.
      * intros [H|[H|(q & Hq & H)]]; [|done|].
        -- exists p. split; [by left|done].
        -- exists q. split; [by right|done].
      * intros (q & Hq & H). apply elem_of_cons in Hq as [->|Hq]; [by left|].
        right. right. by exists q.
Qed.

(** The separator occurs in the response exactly when it occurs in one of
    its lines. *)
Lemma pipe_in_lines response :
  Py.contains pipe response = true <->
  exists line, line ∈ Py.split [nl] (Py.strip response) /\
               Py.contains pipe line = true.
Proof.
  change pipe with [124]. rewrite contains_single.
  rewrite <- (strip_elem 124 response) by done.
  destruct (join_split nl (Py.strip response)) as [Hjoin _].
  rewrite <- Hjoin at 1. rewrite join_elem by done.
  split; intros (line & Hl & Hc); exists line; split; try done.
  - by apply contains_single.
  - by apply contains_single in Hc.
Qed.

Lemma lines_of_split response : lines_of response (Py.split [nl] (Py.strip response)).
Proof.
  exists (Py.strip response). split; [apply strip_trimmed|].
  split; [apply split_from_nonempty|]. apply join_split.
Qed.

(** The response has no separator exactly when none of its lines has. *)
Lemma no_separator_lines response :
  124 ∉ response <->
  exists lines, lines_of response lines /\ Forall (fun line => 124 ∉ line) lines.
Proof.
  split.
  - intros Hno. exists (Py.split [nl] (Py.strip response)).
    split; [apply lines_of_split|].
    apply Forall_forall. intros line Hline Hin. apply Hno.
    apply contains_single. change [124] with pipe. apply pipe_in_lines.
    exists line. split; [done|]. by apply contains_single.
  - intros (lines & (text & Htrim & _ & Hjoin & _) & Hall) Hin.
    destruct Htrim as (l & r & E & Hl & Hr & _).
    rewrite Forall_forall in Hl. rewrite Forall_forall in Hr.
    rewrite Forall_forall in Hall.
    rewrite E, !elem_of_app in Hin. destruct Hin as [Hin|[Hin|Hin]].
    + by apply Hl in Hin.
    + rewrite <- Hjoin in Hin. apply join_elem in Hin as (p & Hp & Hin); [|done].
      by apply (Hall p).
    + by apply Hr in Hin.
Qed.

Lemma valid_lines_nonempty lines :
  valid_lines lines <> [] <->
  exists line, line ∈ lines /\ Py.contains pipe line = true.
Proof.
  split.
  - destruct (valid_lines lines) as [|[i line] rest] eqn:E; [done|]. intros _.
    assert ((i, line) ∈ valid_lines lines) as H by (rewrite E; by left).
    apply elem_of_valid_lines in H as [Hi Hp].
    exists line. split; [|done]. by eapply list_elem_of_lookup_2.
  - intros (line & Hl & Hp) E.
    apply list_elem_of_lookup_1 in Hl as [i Hi].
    assert ((i, line) ∈ valid_lines lines) as H by (by apply elem_of_valid_lines).
    rewrite E in H. by apply elem_of_nil in H.
Qed.

(** A response without the separator gives no row; one with it gives the
    rows of its valid lines, at least one. *)
Lemma rows_of_response response :
  let lines := Py.split [nl] (Py.strip response) in
  parse_lines 0 lines [] = map (fun p => row_of_line (fst p) (snd p)) (valid_lines lines) /\
  (Py.contains pipe response = false -> build_skeleton lines = fallback_rows) /\
  (Py.contains pipe response = true ->
   valid_lines lines <> [] /\
   build_skeleton lines = map (fun p => row_of_line (fst p) (snd p)) (valid_lines lines)).
Proof.
  intros lines.
  assert (parse_lines 0 lines [] =
          map (fun p => row_of_line (fst p) (snd p)) (valid_lines lines)) as Hrows.
  { by rewrite parse_lines_spec. }
  split; [done|]. split.
  - intros H. apply build_skeleton_fallback. rewrite Hrows.
    destruct (valid_lines lines) eqn:E; [done|]. exfalso.
    assert (valid_lines lines <> []) as Hne by (by rewrite E).
    apply valid_lines_nonempty, pipe_in_lines in Hne. congruence.
  - intros H. assert (valid_lines lines <> []) as Hne.
    { by apply valid_lines_nonempty, pipe_in_lines. }
    split; [done|]. rewrite <- Hrows. apply build_skeleton_parsed.
    rewrite Hrows. by destruct (valid_lines lines).
Qed.

(** The first field of a split text. *)
Lemma split_head b :
  up_to_separator b (nth 0 (Py.split pipe b) []).
Proof.
  change pipe with [124]. destruct (decide (124 ∈ b)) as [Hin|Hout].
  - destruct (elem_split 124 b Hin) as (g & rest & -> & Hg).
    rewrite split_first by done. split; [done|]. right. by exists rest.
  - rewrite split_absent by done. split; [done|]. by left.
Qed.

(** [str(n)] is the decimal numeral of [n]. *)
Lemma digits_shape f n acc :
  n < 10 ^ N.of_nat f -> (0 < f)%nat ->
  exists ds, Py.digits f n acc = ds ++ acc /\ ds <> [] /\
             Forall (fun c => 48 <= c <= 57) ds /\
             (0 < n -> hd 0 ds <> 48) /\ (n = 0 -> ds = [48]).
Proof.
  revert n acc. induction f as [|f IH]; intros n acc Hn Hf; [lia|].
  cbn [Py.digits]. destruct (N.ltb_spec n 10) as [Hlt|Hge].
  - exists [48 + n mod 10]. rewrite N.mod_small by done.
    split; [done|]. split; [done|]. split; [constructor; [lia|done]|].
    split; [simpl; lia|]. by intros ->.
  - assert (n / 10 < 10 ^ N.of_nat f) as Hq.
    { apply N.Div0.div_lt_upper_bound.
      rewrite Nat2N.inj_succ, N.pow_succ_r' in Hn. exact Hn. }
    assert (0 < n / 10) as Hpos.
    { apply N.div_str_pos. lia. }
    assert (0 < f)%nat as Hf'.
    { destruct f; [|lia]. simpl in Hq. clear -Hq Hpos. revert Hq Hpos.
      generalize (n / 10). intros q. change (10 ^ 0) with 1. lia. }
    destruct (IH (n / 10) ((48 + n mod 10) :: acc) Hq Hf')
      as (ds & E & Hne & Hd & Hhd & _).
    exists (ds ++ [48 + n mod 10]). rewrite E, <- app_assoc.
    split; [done|]. split; [by destruct ds|].
    split.
    { apply Forall_app. split; [done|]. constructor; [|done].
      pose proof (N.mod_upper_bound n 10 ltac:(done)) as Hm.
      revert Hm. generalize (n mod 10). intros m Hm. lia. }
    split.
    { intros _. destruct ds as [|d ds]; [done|]. by apply Hhd. }
    intros ->. done.
Qed.

Lemma str_of_nat_decimal n : decimal n (Py.str_of_nat n).
Proof.
  assert (N.of_nat n < 10 ^ N.of_nat (S n)) as Hb.
  { rewrite Nat2N.inj_succ, N.pow_succ_r'.
    pose proof (N.pow_gt_lin_r 10 (N.of_nat n) ltac:(lia)) as Hp.
    revert Hp. generalize (10 ^ N.of_nat n). lia. }
  destruct (digits_shape (S n) (N.of_nat n) [] Hb ltac:(lia))
    as (ds & E & Hne & Hd & Hhd & Hz).
  unfold decimal. split.
  { unfold Py.str_of_nat. rewrite E, app_nil_r. done. }
  split.
  { unfold Py.str_of_nat. by rewrite E, app_nil_r. }
  split.
  { unfold Py.str_of_nat. rewrite E, app_nil_r. intros H.
    destruct (decide (n = 0%nat)) as [->|Hn]; [by apply Hz|].
    exfalso. apply Hhd; [lia|done]. }
  apply nat_of_digits_str_of_nat.
Qed.

End LineFacts.

(** ** The lesson parser *)

Section RegexFacts.

Implicit Types (s o c pre post x : str).

Lemma lazy_group_find c s :
  Re.lazy_group c s =
  match str_find c s with
  | Some j => Some (take j s)
  | None => None
  end.
Proof.
  induction s as [|y s IH]; cbn [Re.lazy_group str_find].
  - by destruct (Py.startswith c []).
  - destruct (Py.startswith c (y :: s)); [done|].
    rewrite IH. by destruct (str_find c s).
Qed.

(** Past a point after which the closing tag does not occur, it does not
    occur either. *)
Lemma find_None_tail c y s : str_find c (y :: s) = None -> str_find c s = None.
Proof.
  cbn [str_find]. destruct (Py.startswith c (y :: s)); [done|].
  by destruct (str_find c s).
Qed.

Lemma find_None_drop c k s : str_find c s = None -> str_find c (drop k s) = None.
Proof.
  revert s. induction k as [|k IH]; intros s H; [done|].
  destruct s as [|y s]; [done|]. simpl. apply IH. by apply find_None_tail in H.
Qed.

(** When no closing tag follows the first position where an opening tag
    could end, no start position matches. *)
Lemma search_None_no_close o c s :
  str_find c (drop (length o) s) = None -> Re.search o c s = None.
Proof.
  induction s as [|y s IH]; intros H.
  - cbn [Re.search]. unfold Re.match_at.
    destruct (Py.startswith o []); [|done].
    by rewrite lazy_group_find, H.
  - cbn [Re.search]. unfold Re.match_at.
    rewrite lazy_group_find, H.
    assert (str_find c (drop (length o) s) = None) as Hs.
    { replace (drop (length o) s) with (drop 1 (drop (length o) (y :: s))).
      - by apply find_None_drop.
      - rewrite drop_drop. by replace (length o + 1)%nat with (S (length o)) by lia. }
    rewrite (IH Hs). by destruct (Py.startswith o (y :: s)).
Qed.

(** The backtracking search finds the region the specification names. *)
Lemma search_delimited o c s : Re.search o c s = delimited_region o c s.
Proof.
  unfold delimited_region. induction s as [|y s IH].
  - cbn [Re.search str_find]. unfold Re.match_at.
    destruct (Py.startswith o []); [|done].
    rewrite lazy_group_find. simpl.
    by destruct (str_find c (drop (length o) [])).
  - cbn [Re.search str_find]. unfold Re.match_at.
    destruct (Py.startswith o (y :: s)) eqn:E.
    + rewrite lazy_group_find. cbn [Nat.add].
      destruct (str_find c (drop (length o) (y :: s))) eqn:F; [done|].
      apply search_None_no_close.
      replace (drop (length o) s) with (drop 1 (drop (length o) (y :: s))).
      * by apply find_None_drop.
      * rewrite drop_drop. by replace (length o + 1)%nat with (S (length o)) by lia.
    + rewrite IH. by destruct (str_find o s).
Qed.

Lemma extract_section_spec tag marker raw :
  extract_section tag marker raw = section_or_marker tag marker raw.
Proof.
  unfold extract_section, section_or_marker. rewrite search_delimited.
  by destruct (delimited_region _ _ raw).
Qed.

(** [str_find] is the first occurrence. *)
Lemma str_find_Some sub s i :
  str_find sub s = Some i ->
  Py.startswith sub (drop i s) = true /\
  forall j, (j < i)%nat -> Py.startswith sub (drop j s) = false.
Proof.
  revert i. induction s as [|y s IH]; intros i; cbn [str_find].
  - destruct (Py.startswith sub []) eqn:E; [|done].
    intros [= <-]. split; [done|]. lia.
  - destruct (Py.startswith sub (y :: s)) eqn:E.
    + intros [= <-]. split; [done|]. lia.
    + destruct (str_find sub s) as [i'|] eqn:F; [|done].
      intros [= <-]. destruct (IH i' eq_refl) as [H1 H2].
      split; [done|]. intros [|j] Hj; [done|]. simpl. apply H2. lia.
Qed.

Lemma str_find_None sub s :
  str_find sub s = None -> Py.contains sub s = false.
Proof.
  induction s as [|y s IH]; cbn [str_find Py.contains].
  - by destruct (Py.startswith sub []).
  - destruct (Py.startswith sub (y :: s)); [done|].
    destruct (str_find sub s); [done|]. intros _. by apply IH.
Qed.

(** A pattern whose first character does not recur in it cannot match
    across the start of its own occurrence. *)
Lemma startswith_overlap z q p t :
  z ∉ q -> Py.startswith q (p ++ z :: t) = true -> Py.startswith q p = true.
Proof.
  revert p. induction q as [|a q IH]; intros p Hz H; [done|].
  apply not_elem_of_cons in Hz as [Hza Hz].
  destruct p as [|y p]; cbn [app Py.startswith] in *.
  - by rewrite (neq_eqb_false z a) in H by congruence.
  - apply andb_true_iff in H as [-> H]. by apply IH.
Qed.

Lemma str_find_first z sub pre rest :
  z ∉ sub -> Py.contains (z :: sub) pre = false ->
  str_find (z :: sub) (pre ++ (z :: sub) ++ rest) = Some (length pre).
Proof.
  intros Hz. induction pre as [|y pre IH]; intros Hpre.
  - cbn [app str_find]. change (z :: sub ++ rest) with ((z :: sub) ++ rest).
    by rewrite startswith_app.
  - change ((y :: pre) ++ (z :: sub) ++ rest) with (y :: (pre ++ z :: (sub ++ rest))).
    cbn [Py.contains] in Hpre. apply orb_false_iff in Hpre as [Hhd Htl].
    cbn [str_find].
    assert (Py.startswith (z :: sub) (y :: (pre ++ z :: (sub ++ rest))) = false) as ->.
    { destruct (Py.startswith (z :: sub) (y :: (pre ++ z :: (sub ++ rest)))) eqn:E; [|done].
      cbn [Py.startswith] in E, Hhd. apply andb_true_iff in E as [Ezy E].
      apply startswith_overlap in E; [|done]. by rewrite Ezy, E in Hhd. }
    change (pre ++ z :: (sub ++ rest)) with (pre ++ (z :: sub) ++ rest).
    by rewrite IH.
Qed.

(** A section is extracted whole, line breaks included, whatever stands
    before it (short of its own opening tag) and after it. *)
Lemma extract_section_present tag marker pre x post :
  60 ∉ lit tag ->
  Py.contains (lit "<" ++ lit tag ++ lit ">") pre = false ->
  Py.contains (lit "</" ++ lit tag ++ lit ">") x = false ->
  extract_section tag marker
    (pre ++ (lit "<" ++ lit tag ++ lit ">") ++ x ++
     (lit "</" ++ lit tag ++ lit ">") ++ post) = Py.strip x.
Proof.
  intros Htag Hpre Hx. rewrite extract_section_spec.
  unfold section_or_marker, delimited_region.
  change (lit "<" ++ lit tag ++ lit ">") with (60 :: (lit tag ++ lit ">")) in *.
  change (lit "</" ++ lit tag ++ lit ">") with (60 :: (lit "/" ++ lit tag ++ lit ">")) in *.
  assert (60 ∉ lit tag ++ lit ">") as Ho.
  { intros [?|H]%elem_of_app; [done|]. by apply list_elem_of_singleton in H. }
  assert (60 ∉ lit "/" ++ lit tag ++ lit ">") as Hc.
  { change (lit "/" ++ ?r) with (47 :: r). by intros [?|?]%elem_of_cons. }
  rewrite str_find_first by done.
  rewrite (app_assoc pre), drop_app_length' by (by rewrite length_app).
  rewrite str_find_first by done.
  by rewrite take_app_length.
Qed.

Lemma extract_section_absent tag marker raw :
  Py.contains (lit "<" ++ lit tag ++ lit ">") raw = false ->
  extract_section tag marker raw = marker.
Proof.
  intros H. rewrite extract_section_spec.
  unfold section_or_marker, delimited_region.
  destruct (str_find _ raw) as [i|] eqn:E; [|done].
  apply str_find_Some in E as [E _].
  assert (Py.contains (lit "<" ++ lit tag ++ lit ">") raw = true); [|congruence].
  clear H. revert raw E. induction i as [|i IH]; intros raw E.
  - by apply contains_startswith.
  - destruct raw as [|y raw].
    + by apply contains_startswith.
    + cbn [Py.contains]. simpl in E. by rewrite (IH raw E), orb_true_r.
Qed.

End RegexFacts.

(** ** The script *)

Section ScriptFacts.

Context (py : Python).
Implicit Types (w : Widgets) (st : SessionState).

Local Ltac run_unfold :=
  unfold run, script, step1, step2, step3, mbind, mret, Script_bind, Script_ret,
    get, modify, rerun, lift, call, button in *.

Local Ltac step := cbn -[skeleton_prompt calibration_prompt full_prompt parse_lesson COMPLETE PENDING].

Local Ltac crunch :=
  repeat (cbn -[skeleton_prompt calibration_prompt full_prompt parse_lesson COMPLETE PENDING] in *;
          simplify_eq;
          try match goal with
              | H : context [_ && false] |- _ => rewrite andb_false_r in H
              end;
          try done; try congruence; try case_match).

(** In a state with a locked profile and the analysis it was read from,
    a run never reaches [eval]: it keeps the profile locked and the
    analysis in place. *)
Lemma run_settled w st :
  locked_config st <> None -> coherent st ->
  locked_config (fst (run py w st)) <> None /\ coherent (fst (run py w st)).
Proof.
  intros Hl Hc. destruct (Hc Hl) as (d & Hd & Hne).
  destruct st as [lc sd gl ac]; simpl in *; subst.
  destruct lc as [c|]; [|done]. destruct d as [|p d]; [done|].
  clear Hl Hc.
  run_unfold. destruct (clicked w) as [[]|]; crunch.
  all: split; [done|]; intros _; by exists (p :: d).
Qed.

(** No run takes a locked profile away. *)
Lemma run_keeps_lock w st :
  locked_config st <> None -> coherent st ->
  locked_config (fst (run py w st)) <> None.
Proof. intros Hl Hc. by apply run_settled. Qed.

(** Only a submission of the calibration form changes the locked profile. *)
Lemma run_lock_frame w st c :
  locked_config st = Some c -> coherent st ->
  button w Lock_Configuration = false ->
  locked_config (fst (run py w st)) = Some c.
Proof.
  intros Hl Hc H. destruct (Hc ltac:(congruence)) as (d & Hd & Hne).
  destruct st as [lc sd gl ac]; simpl in *; subst. destruct d; [done|].
  run_unfold. destruct (clicked w) as [[]|]; crunch.
Qed.

(** A submission of the form stores the submitted fields, whatever was
    locked before. *)
Lemma run_lock w st d :
  analyzed_curriculum st = PyDict d -> d <> [] ->
  clicked w = Some Lock_Configuration ->
  run py w st =
  (set_locked_config
     (Some {| audience := audience_input w; level := level_input w;
              grading := grading_input w; themes := themes_input w |}) st,
   Stopped Rerun).
Proof.
  intros Ha Hd Hw. destruct st as [lc sd gl ac]; simpl in *; subst.
  destruct d; [done|].
  run_unfold. rewrite Hw. crunch.
Qed.

(** With an analysis that is true and no dict, every run ends at the
    first [data.get] of the form (line 129). *)
Lemma run_not_a_dict w st e :
  truthy (analyzed_curriculum st) = true ->
  dict_get_check (analyzed_curriculum st) = Raised e ->
  run py w st = (st, Stopped (Uncaught e)).
Proof.
  intros Ht He. destruct st as [lc sd gl ac]; simpl in *.
  run_unfold.
  destruct ac; simpl in He; simplify_eq; simpl in Ht.
  all: destruct (uploaded_curriculum w); step; rewrite ?Ht, ?andb_false_r; step.
  all: by rewrite ?Ht.
Qed.

Lemma initial_coherent : coherent initial_state.
Proof. by intros H. Qed.

Lemma session_settled ws st :
  locked_config st <> None -> coherent st ->
  locked_config (session py ws st) <> None /\ coherent (session py ws st).
Proof.
  revert st. induction ws as [|w ws IH]; intros st Hl Hc; [done|].
  simpl. destruct (run_settled w st Hl Hc) as [Hl' Hc']. by apply IH.
Qed.

Lemma session_keeps_lock ws st :
  locked_config st <> None -> coherent st ->
  locked_config (session py ws st) <> None.
Proof. intros Hl Hc. by apply session_settled. Qed.

(** *** Stage 2 *)

Lemma run_generate_skeleton w st c response :
  locked_config st = Some c -> coherent st -> syllabus_df st = None ->
  clicked w = Some Generate_Skeleton -> nonempty (api_key w) = true ->
  gemini w (api_key w) (skeleton_prompt py (Some c)) = Ok response ->
  run py w st =
  (set_syllabus_df (Some (build_skeleton (Py.split [nl] (Py.strip response)))) st,
   Stopped Rerun).
Proof.
  intros Hl Hc Hs Hw Hk Hg.
  destruct (Hc ltac:(congruence)) as (d & Hd & Hne).
  destruct st as [lc sd gl ac]; simpl in *; subst. destruct d; [done|].
  run_unfold. unfold generate_skeleton_llm. rewrite Hw, Hk.
  destruct (uploaded_curriculum w); step; rewrite Hg; crunch.
Qed.

Lemma run_generate_skeleton_fails w st c e :
  locked_config st = Some c -> coherent st -> syllabus_df st = None ->
  clicked w = Some Generate_Skeleton -> nonempty (api_key w) = true ->
  gemini w (api_key w) (skeleton_prompt py (Some c)) = Raised e ->
  run py w st = (st, Stopped (Uncaught e)).
Proof.
  intros Hl Hc Hs Hw Hk Hg.
  destruct (Hc ltac:(congruence)) as (d & Hd & Hne).
  destruct st as [lc sd gl ac]; simpl in *; subst. destruct d; [done|].
  run_unfold. unfold generate_skeleton_llm. rewrite Hw, Hk.
  destruct (uploaded_curriculum w); step; rewrite Hg; crunch.
Qed.

Lemma run_reset w st c df :
  locked_config st = Some c -> coherent st -> syllabus_df st = Some df ->
  clicked w = Some Reset_Syllabus ->
  run py w st = (set_syllabus_df None st, Stopped Rerun).
Proof.
  intros Hl Hc Hs Hw.
  destruct (Hc ltac:(congruence)) as (d & Hd & Hne).
  destruct st as [lc sd gl ac]; simpl in *; subst. destruct d; [done|].
  run_unfold. rewrite Hw. crunch.
Qed.

(** *** Stage 1 *)

Lemma run_analyze_fails w st uploaded raw_text e :
  uploaded_curriculum w = Some uploaded -> nonempty (api_key w) = true ->
  truthy (analyzed_curriculum st) = false ->
  clicked w = Some Analyze_Document ->
  extract_pdf_text uploaded = Some raw_text -> nonempty raw_text = true ->
  gemini w (api_key w) (calibration_prompt raw_text) = Raised e ->
  run py w st = (st, Stopped (Uncaught e)).
Proof.
  intros Hu Hk Ht Hw Hx Hn Hg.
  destruct st as [lc sd gl ac]; simpl in *.
  run_unfold. unfold analyze_curriculum_llm.
  rewrite Hu, Hk, Hw. step. rewrite Ht, Hx. step. rewrite Hn, Hg. done.
Qed.

Lemma run_analyze w st uploaded raw_text response :
  uploaded_curriculum w = Some uploaded -> nonempty (api_key w) = true ->
  truthy (analyzed_curriculum st) = false ->
  clicked w = Some Analyze_Document ->
  extract_pdf_text uploaded = Some raw_text -> nonempty raw_text = true ->
  gemini w (api_key w) (calibration_prompt raw_text) = Ok response ->
  run py w st =
  (set_analyzed_curriculum (snd (parse_calibration py response st))
     (fst (parse_calibration py response st)),
   Stopped Rerun).
Proof.
  intros Hu Hk Ht Hw Hx Hn Hg.
  destruct st as [lc sd gl ac]; simpl in *.
  run_unfold. unfold analyze_curriculum_llm.
  rewrite Hu, Hk, Hw. step. rewrite Ht, Hx. step. rewrite Hn, Hg. done.
Qed.

(** A PDF that cannot be read: [extract_pdf_text] has caught the
    exception, and the run goes on to its end. *)
Lemma run_analyze_unreadable w st uploaded :
  uploaded_curriculum w = Some uploaded -> nonempty (api_key w) = true ->
  truthy (analyzed_curriculum st) = false ->
  locked_config st = None -> syllabus_df st = None ->
  clicked w = Some Analyze_Document ->
  extract_pdf_text uploaded = None ->
  run py w st = (st, Done {| need_api_key := false; preview := None |}).
Proof.
  intros Hu Hk Ht Hl Hs Hw Hx.
  destruct st as [lc sd gl ac]; simpl in *; subst.
  run_unfold. rewrite Hu, Hk, Hw. step. rewrite Ht, Hx. step. by rewrite Ht.
Qed.

(** *** Stage 3 *)

Lemma selectbox_elem options index :
  options <> [] -> selectbox options index ∈ options.
Proof.
  intros H. unfold selectbox.
  destruct (options !! index) as [o|] eqn:E; simpl.
  - by eapply list_elem_of_lookup_2.
  - destruct options; [done|]. simpl. apply list_elem_of_here.
Qed.

Lemma first_week_elem week (df : DataFrame) :
  week ∈ map Week df ->
  exists idx r, first_week week df = Ok idx /\ df !! idx = Some r /\ Week r = week /\
                forall j r', df !! j = Some r' -> (j < idx)%nat -> Week r' <> week.
Proof.
  intros H. apply list_elem_of_fmap in H as (r0 & -> & Hr0).
  unfold first_week.
  destruct (list_find (fun r => Week r = Week r0) df) as [[idx r]|] eqn:E.
  - apply list_find_Some in E as (Hi & Hr & Hmin). by exists idx, r.
  - apply list_find_None in E. rewrite Forall_forall in E. by destruct (E r0).
Qed.

Lemma first_week_selectbox (df : DataFrame) index :
  df <> [] ->
  exists idx, first_week (selectbox (map Week df) index) df = Ok idx.
Proof.
  intros H.
  destruct (first_week_elem (selectbox (map Week df) index) df) as (idx & r & E & _).
  - apply selectbox_elem. by destruct df.
  - by exists idx.
Qed.

(** The state a run leaves when the lesson button is pressed and the
    model answers. *)
Lemma run_generate_lesson w st c df src output :
  locked_config st = Some c -> coherent st -> syllabus_df st = Some df ->
  data_editor w df <> [] ->
  clicked w = Some Generate_Lesson_Materials -> nonempty (api_key w) = true ->
  read_sources (uploaded_context w) [] = Ok src ->
  let week := selectbox (map Week (data_editor w df)) (week_choice w) in
  gemini w (api_key w)
    (full_prompt py (Some c) week (custom_topic w) (custom_grammar w)
       (teacher_notes w) (accessibility w) src) = Ok output ->
  exists idx,
    first_week week (data_editor w df) = Ok idx /\
    run py w st =
    (set_syllabus_df (Some (set_status idx COMPLETE (data_editor w df)))
       (set_generated_lessons (<[week := output]> (generated_lessons st)) st),
     Stopped Rerun).
Proof.
  intros Hl Hc Hs Hdf Hw Hk Hsrc week Hg. subst week.
  destruct (first_week_selectbox (data_editor w df) (week_choice w) Hdf) as [idx Hidx].
  exists idx. split; [done|].
  destruct (Hc ltac:(congruence)) as (d & Hd & Hne).
  destruct st as [lc sd gl ac]; simpl in *; subst. destruct d; [done|].
  run_unfold. unfold generate_lesson_material. rewrite Hw, Hk.
  destruct (uploaded_curriculum w); step.
  all: destruct (data_editor w df) as [|r rs] eqn:Hed; [done|].
  all: cbn [map] in Hidx, Hg; step; rewrite Hidx; step; rewrite Hsrc; step.
  all: rewrite Hg; step; rewrite ?Hidx; done.
Qed.

(** The same run when the model call fails: only the grid commit of
    line 185 has happened. *)
Lemma run_generate_lesson_fails w st c df src e :
  locked_config st = Some c -> coherent st -> syllabus_df st = Some df ->
  data_editor w df <> [] ->
  clicked w = Some Generate_Lesson_Materials -> nonempty (api_key w) = true ->
  read_sources (uploaded_context w) [] = Ok src ->
  let week := selectbox (map Week (data_editor w df)) (week_choice w) in
  gemini w (api_key w)
    (full_prompt py (Some c) week (custom_topic w) (custom_grammar w)
       (teacher_notes w) (accessibility w) src) = Raised e ->
  run py w st = (set_syllabus_df (Some (data_editor w df)) st, Stopped (Uncaught e)).
Proof.
  intros Hl Hc Hs Hdf Hw Hk Hsrc week Hg. subst week.
  destruct (first_week_selectbox (data_editor w df) (week_choice w) Hdf) as [idx Hidx].
  destruct (Hc ltac:(congruence)) as (d & Hd & Hne).
  destruct st as [lc sd gl ac]; simpl in *; subst. destruct d; [done|].
  run_unfold. unfold generate_lesson_material. rewrite Hw, Hk.
  destruct (uploaded_curriculum w); step.
  all: destruct (data_editor w df) as [|r rs] eqn:Hed; [done|].
  all: cbn [map] in Hidx, Hg; step; rewrite Hidx; step; rewrite Hsrc; step.
  all: rewrite Hg; done.
Qed.

(** The run with the same widgets and no button pressed. *)
Lemma run_idle_grid w st c df :
  locked_config st = Some c -> coherent st -> syllabus_df st = Some df ->
  fst (run py (release w) st) = set_syllabus_df (Some (data_editor w df)) st.
Proof.
  intros Hl Hc Hs.
  destruct (Hc ltac:(congruence)) as (d & Hd & Hne).
  destruct st as [lc sd gl ac]; simpl in *; subst. destruct d; [done|].
  run_unfold. step. rewrite ?andb_false_r. destruct (uploaded_curriculum w); step.
  all: destruct (data_editor w df) as [|r rs] eqn:Hed; [by step|].
  all: destruct (first_week_selectbox (r :: rs) (week_choice w)) as [idx Hidx]; [done|].
  all: cbn [map] in Hidx; step; rewrite Hidx; done.
Qed.

(** Without a plan the lesson button does nothing. *)
Lemma run_workbench_closed w st c :
  locked_config st = Some c -> coherent st -> syllabus_df st = None ->
  clicked w = Some Generate_Lesson_Materials ->
  run py w st = (st, Done {| need_api_key := false; preview := None |}).
Proof.
  intros Hl Hc Hs Hw.
  destruct (Hc ltac:(congruence)) as (d & Hd & Hne).
  destruct st as [lc sd gl ac]; simpl in *; subst. destruct d; [done|].
  run_unfold. rewrite Hw. crunch.
Qed.

Lemma set_syllabus_df_same st df :
  syllabus_df st = Some df -> set_syllabus_df (Some df) st = st.
Proof. destruct st; simpl; by intros ->. Qed.

Lemma set_status_lookup idx s (df : DataFrame) row :
  df !! idx = Some row ->
  set_status idx s df !! idx = Some (with_status s row) /\
  forall j, j <> idx -> set_status idx s df !! j = df !! j.
Proof.
  intros H. unfold set_status. split.
  - by rewrite list_lookup_alter_eq, H.
  - intros j Hj. by rewrite list_lookup_alter_ne.
Qed.

Lemma set_status_weeks idx s (df : DataFrame) :
  map Week (set_status idx s df) = map Week df.
Proof.
  unfold set_status, alter. revert idx.
  induction df as [|r df IH]; intros [|idx]; simpl; f_equal; auto.
Qed.

(** Material appears or changes under a key only in a run that ends with
    that key among the week labels of the stored frame. *)
Lemma run_lessons_change w st k :
  button w Analyze_Document = false ->
  generated_lessons (fst (run py w st)) !! k <> generated_lessons st !! k ->
  exists df, syllabus_df (fst (run py w st)) = Some df /\ k ∈ map Week df.
Proof.
  intros Hb. destruct st as [lc sd gl ac]; simpl in *.
  run_unfold. destruct (clicked w) as [[]|]; crunch.
  all: intros Hk.
  all: match type of Hk with
       | <[?key := _]> _ !! _ <> _ =>
           destruct (decide (k = key)) as [->|Hne];
           [|by rewrite lookup_insert_ne in Hk]
       end.
  all: eexists; split; [done|].
  all: rewrite set_status_weeks; by apply (selectbox_elem (_ :: _)).
Qed.

End ScriptFacts.

(** ** The lesson prompt *)

Section PromptFacts.

Implicit Types (s src acc : str) (files : list UploadedFile).

Lemma nonempty_app_r s t : nonempty t = true -> nonempty (s ++ t) = true.
Proof.
  unfold nonempty. rewrite length_app. destruct t; [done|].
  intros _. apply negb_true_iff, Nat.eqb_neq. simpl. lia.
Qed.

Lemma nonempty_source_block file_name body : nonempty (source_block file_name body) = true.
Proof. done. Qed.

(** The concatenation is empty only when no file was uploaded. *)
Lemma read_sources_nonempty files acc src :
  read_sources files acc = Ok src ->
  nonempty src = match files with [] => nonempty acc | _ :: _ => true end.
Proof.
  revert acc. induction files as [|f files IH]; intros acc; cbn [read_sources].
  - by intros [= ->].
  - destruct (str_eqb (type f) (lit "application/pdf")).
    + intros H%IH.
      rewrite H. destruct files; [|done].
      by apply nonempty_app_r.
    + destruct (utf8_text f) as [t|]; [|done]. intros H%IH.
      rewrite H. destruct files; [|done].
      by apply nonempty_app_r.
Qed.

Lemma read_sources_mode files src :
  read_sources files [] = Ok src ->
  instruction_mode src =
  match files with [] => write_creative | _ :: _ => use_source_strictly end.
Proof.
  intros H%read_sources_nonempty. unfold instruction_mode. rewrite H.
  by destruct files.
Qed.

Lemma contains_cons sub y s : Py.contains sub s = true -> Py.contains sub (y :: s) = true.
Proof. intros H. cbn [Py.contains]. by rewrite H, orb_true_r. Qed.

Lemma contains_app_r sub p s : Py.contains sub s = true -> Py.contains sub (p ++ s) = true.
Proof. intros H. induction p; [done|]. by apply contains_cons. Qed.

Lemma contains_here sub s : Py.contains sub (sub ++ s) = true.
Proof. apply contains_startswith, startswith_app. Qed.

Local Ltac find_part :=
  unfold full_prompt, unlines; cbn [map concat];
  rewrite <- ?app_assoc;
  repeat lazymatch goal with
         | |- Py.contains ?sub (?h ++ ?t) = true =>
             first [ constr_eq sub h; apply contains_here | apply contains_app_r ]
         | |- Py.contains _ (_ :: _) = true => apply contains_cons
         end.

(** The chosen instruction is in the prompt. *)
Lemma full_prompt_instruction py config week topic grammar notes access src :
  Py.contains (instruction_mode src)
    (full_prompt py config week topic grammar notes access src) = true.
Proof. find_part. Qed.

(** So is the truncated source text. *)
Lemma full_prompt_source py config week topic grammar notes access src :
  Py.contains (Py.prefix 20000 src)
    (full_prompt py config week topic grammar notes access src) = true.
Proof. find_part. Qed.

Lemma full_prompt_access py config week topic grammar notes access src :
  Py.contains (access_mode access)
    (full_prompt py config week topic grammar notes access src) = true.
Proof. find_part. Qed.

Lemma prefix_length n s : (length (Py.prefix n s) <= N.to_nat n)%nat.
Proof. unfold Py.prefix. rewrite length_take. lia. Qed.

Lemma prefix_length_N n s : N.of_nat (length (Py.prefix n s)) <= n.
Proof. unfold Py.prefix. rewrite length_take. lia. Qed.

Lemma prefix_nonempty s : nonempty (Py.prefix 20000 s) = nonempty s.
Proof.
  unfold Py.prefix.
  assert (exists k, N.to_nat 20000 = S k) as [k ->] by (exists (N.to_nat 19999); lia).
  by destruct s.
Qed.

(** Nothing of the source text past its first 20000 characters reaches
    the prompt. *)
Lemma full_prompt_truncated py config week topic grammar notes access src1 src2 :
  Py.prefix 20000 src1 = Py.prefix 20000 src2 ->
  full_prompt py config week topic grammar notes access src1 =
  full_prompt py config week topic grammar notes access src2.
Proof.
  intros H. unfold full_prompt, instruction_mode.
  rewrite <- (prefix_nonempty src1), <- (prefix_nonempty src2). by rewrite H.
Qed.

(** The prompt is its fixed and user-given lines with two slots: the
    instruction chosen by the source text, and the source text cut. *)
Lemma full_prompt_parts py config week topic grammar notes access src :
  full_prompt py config week topic grammar notes access src =
  prompt_head py config week topic grammar notes access ++
  instruction_mode src ++ prompt_middle ++ Py.prefix 20000 src ++ prompt_tail.
Proof.
  unfold full_prompt, prompt_head, prompt_middle, prompt_tail, unlines.
  cbn [map concat].
  repeat (rewrite <- app_assoc || rewrite <- app_comm_cons || rewrite app_nil_l).
  reflexivity.
Qed.

(** The slice [s[:n]]: the first [n] characters, or all of [s]. *)
Lemma prefix_spec n s :
  (exists rest, s = Py.prefix n s ++ rest) /\
  N.of_nat (length (Py.prefix n s)) = N.min n (N.of_nat (length s)).
Proof.
  unfold Py.prefix. split.
  - exists (drop (N.to_nat n) s). by rewrite take_drop.
  - rewrite length_take. lia.
Qed.

End PromptFacts.
(** * The specification, statement by statement *)

(** ** Stage 1: the calibration parser *)

Lemma literal_python_agrees : agrees_on_fragment literal_python.
Proof. intros s st st' v H. simpl. by rewrite H. Defined.

Lemma locked_state_coherent : coherent locked_state.
Proof. intros _. eexists. split; [reflexivity|discriminate]. Defined.

Lemma planned_state_coherent : coherent planned_state.
Proof. intros _. eexists. split; [reflexivity|discriminate]. Defined.

(** C1: the response [42] is no mapping literal with the four keys, yet the
    calibration parser hands back the integer 42 and not the sentinel
    mapping: the evaluation succeeds, and nothing checks that its value is a
    mapping.  The handler of the Analyze button stores the 42 as the
    analysis, and from then on every run of the script, whatever the user
    does, ends with an [AttributeError] at the first [data.get] of the
    calibration form (line 129) and leaves the state as it is; no profile
    is ever locked in that session. *)
Theorem non_mapping_response_breaks_session
    (py : Python) (st : SessionState) (w' : Widgets)
    (Hpy : agrees_on_fragment py) :
  let w := analyze_click (Ok (lit "42")) in
  let st1 := fst (run py w initial_state) in
  parse_calibration py (lit "42") st = (st, PyInt 42) /\
  PyInt 42 <> error_profile /\
  snd (run py w initial_state) = Stopped Rerun /\
  analyzed_curriculum st1 = PyInt 42 /\
  locked_config st1 = None /\
  run py w' st1 = (st1, Stopped (Uncaught AttributeError)) /\
  forall ws, session py ws st1 = st1.
Proof.
  assert (forall s, parse_calibration py (lit "42") s = (s, PyInt 42)) as Hparse.
  { intros s. unfold parse_calibration.
    replace (clean_response (lit "42")) with (lit "42") by (by vm_compute).
    by rewrite (Hpy (lit "42") s s (PyInt 42)) by (by vm_compute). }
  intros w st1.
  assert (run py w initial_state =
          (set_analyzed_curriculum (PyInt 42) initial_state, Stopped Rerun)) as Hrun.
  { rewrite (run_analyze py w initial_state curriculum_pdf
               (unlines [lit "Kursplan i modersmal"]) (lit "42")) by reflexivity.
    by rewrite Hparse. }
  assert (forall v, run py v st1 = (st1, Stopped (Uncaught AttributeError))) as Hstuck.
  { intros v. apply run_not_a_dict; unfold st1; by rewrite Hrun. }
  split; [apply Hparse|]. split; [discriminate|].
  split; [by rewrite Hrun|]. split; [unfold st1; by rewrite Hrun|].
  split; [unfold st1; by rewrite Hrun|]. split; [apply Hstuck|].
  induction ws as [|v ws IH]; [done|]. cbn [session]. by rewrite Hstuck.
Qed.

Lemma non_mapping_response_breaks_session_witness :
  let st1 := fst (run literal_python (analyze_click (Ok (lit "42"))) initial_state) in
  parse_calibration literal_python (lit "42") initial_state = (initial_state, PyInt 42) /\
  analyzed_curriculum st1 = PyInt 42 /\
  run literal_python (lock_click sample_config) st1 =
    (st1, Stopped (Uncaught AttributeError)).
Proof.
  destruct (non_mapping_response_breaks_session literal_python initial_state
              (lock_click sample_config) literal_python_agrees)
    as (H1 & _ & _ & H2 & _ & H3 & _).
  split; [exact H1|]. split; [exact H2|exact H3].
Defined.

(** C10, as stated, fails: a response that spells three backticks with
    escapes holds no fence token, so the cleaning leaves it alone, and the
    audience value it evaluates to is the bare fence token. *)
Lemma fence_in_value_counterexample :
  clean_response escaped_response = escaped_response /\
  parse_calibration literal_python escaped_response initial_state =
  (initial_state,
   PyDict [ (PyStr (lit "audience"), PyStr fence);
            (PyStr (lit "level"), PyStr (lit "A2"));
            (PyStr (lit "grading"), PyStr (lit "E"));
            (PyStr (lit "themes"), PyStr (lit "Myths")) ]) /\
  Py.contains fence fence = true.
Proof. by vm_compute. Qed.

(** C10 (amended): the text handed to the evaluation holds none of the
    three fence tokens, wherever they stood in the response, and so no part
    of that text does, the text between the quotes of a string literal
    included; the evaluation is given that text and nothing else. *)
Theorem fence_tokens_removed (py : Python) (response pre s post : str) (st : SessionState) :
  Py.contains fence (clean_response response) = false /\
  Py.contains fence_json (clean_response response) = false /\
  Py.contains fence_python (clean_response response) = false /\
  (clean_response response = pre ++ s ++ post -> Py.contains fence s = false) /\
  parse_calibration py response st =
    (fst (py_eval py (clean_response response) st),
     try_except (snd (py_eval py (clean_response response) st)) error_profile).
Proof.
  pose proof (clean_response_clean response) as H.
  split; [exact H|]. split; [by apply fence_free_json|].
  split; [by apply fence_free_python|]. split; [|done].
  intros E. unfold fence_free in H. rewrite E in H.
  destruct (Py.contains fence s) eqn:Hs; [|done].
  by rewrite contains_inside in H.
Qed.

Lemma fence_tokens_removed_witness :
  Py.contains fence (render compact fenced_config) = true /\
  clean_response (wrap PlainFence (render compact fenced_config)) =
    nl :: lit "{" ++ quoted "audience" ++ lit ": " ++ quoted "Grade 7" ++ lit "," ++
          quoted "level" ++ lit ": " ++ quoted "A2 B1" ++ lit "," ++
          quoted "grading" ++ lit ": " ++ quoted "Reads short texts" ++ lit "," ++
          quoted "themes" ++ lit ": " ++ quoted "Myths" ++ lit "}" ++ [nl] /\
  Py.contains fence (lit "A2 B1") = false.
Proof.
  destruct (fence_tokens_removed literal_python
              (wrap PlainFence (render compact fenced_config))
              (nl :: lit "{" ++ quoted "audience" ++ lit ": " ++ quoted "Grade 7" ++
               lit "," ++ quoted "level" ++ lit ": " ++ [dq])
              (lit "A2 B1")
              (dq :: lit "," ++ quoted "grading" ++ lit ": " ++
               quoted "Reads short texts" ++ lit "," ++
               quoted "themes" ++ lit ": " ++ quoted "Myths" ++ lit "}" ++ [nl])
              initial_state) as (_ & _ & _ & H & _).
  split; [by vm_compute|]. split; [by vm_compute|].
  apply H. by vm_compute.
Defined.

(** ** The locked profile *)

(** C2, as stated, fails: after the sample profile is locked, the form of
    step 1 is still there, and a second submission with other field values
    replaces the locked profile without any notice. *)
Lemma second_lock_overwrites :
  let st1 :=
    session literal_python
      [ analyze_click (Ok (wrap JsonFence (render pretty sample_config)));
        lock_click sample_config ] initial_state in
  locked_config st1 = Some sample_config /\
  run literal_python (lock_click other_config) st1 =
    (set_locked_config (Some other_config) st1, Stopped Rerun) /\
  other_config <> sample_config.
Proof. by vm_compute. Qed.

(** C2 (amended): locking is one-way in that no sequence of runs returns a
    locked profile to the unlocked state, and every run other than a
    submission of the calibration form leaves the locked fields as they are;
    the locked fields are not immutable, though: a further submission of the
    form is neither rejected nor a no-op, it stores the submitted fields. *)
Theorem lock_is_one_way_not_immutable
    (py : Python) (w : Widgets) (st : SessionState) (c : Config)
    (Hlocked : locked_config st = Some c) (Hst : coherent st) :
  (forall ws, locked_config (session py ws st) <> None) /\
  (button w Lock_Configuration = false ->
   locked_config (fst (run py w st)) = Some c) /\
  (clicked w = Some Lock_Configuration ->
   run py w st =
   (set_locked_config
      (Some {| audience := audience_input w; level := level_input w;
               grading := grading_input w; themes := themes_input w |}) st,
    Stopped Rerun)).
Proof.
  split; [|split].
  - intros ws. apply session_keeps_lock; [congruence|done].
  - intros H. by apply run_lock_frame.
  - intros H. destruct Hst as (d & Hd & Hne); [congruence|].
    by eapply run_lock.
Qed.

Lemma lock_is_one_way_not_immutable_witness :
  locked_config (session literal_python [reset_click; skeleton_click (Ok [])] locked_state)
    <> None /\
  locked_config (fst (run literal_python reset_click locked_state)) = Some sample_config /\
  locked_config (fst (run literal_python (lock_click other_config) locked_state)) =
    Some other_config.
Proof.
  destruct (lock_is_one_way_not_immutable literal_python reset_click locked_state
              sample_config eq_refl locked_state_coherent) as (H1 & H2 & _).
  destruct (lock_is_one_way_not_immutable literal_python (lock_click other_config)
              locked_state sample_config eq_refl locked_state_coherent) as (_ & _ & H3).
  split; [apply H1|]. split; [apply H2; reflexivity|].
  rewrite H3 by reflexivity. reflexivity.
Defined.

(** ** Stage 2: the skeleton *)

(** C3: once a profile is locked, pressing the skeleton button with a key
    always stores a non-empty plan and ends the run with a rerun, for every
    text the model returns, and touches nothing else of the session; when
    no line of the text has the separator, which is when the text has none,
    the plan stored is the placeholder collection of exactly 34 generic
    entries, labelled Week 1 to Week 34. *)
Theorem skeleton_transition_succeeds
    (py : Python) (w : Widgets) (st : SessionState) (c : Config) (response : str)
    (Hlocked : locked_config st = Some c) (Hst : coherent st)
    (Hnone : syllabus_df st = None)
    (Hclick : clicked w = Some Generate_Skeleton)
    (Hkey : nonempty (api_key w) = true)
    (Hreply : gemini w (api_key w) (skeleton_prompt py (Some c)) = Ok response) :
  let st' := fst (run py w st) in
  snd (run py w st) = Stopped Rerun /\
  (exists df, syllabus_df st' = Some df /\ df <> [] /\
              ((124 ∉ response) -> placeholder_entries df)) /\
  ((124 ∉ response) <->
   exists lines, lines_of response lines /\ Forall (fun line => 124 ∉ line) lines) /\
  locked_config st' = Some c /\
  generated_lessons st' = generated_lessons st /\
  analyzed_curriculum st' = analyzed_curriculum st.
Proof.
  intros st'. unfold st'.
  rewrite (run_generate_skeleton py w st c response) by done. cbn [fst snd].
  split; [done|]. split; [|split; [apply no_separator_lines|done]].
  exists (build_skeleton (Py.split [nl] (Py.strip response))).
  split; [done|]. split; [apply build_skeleton_nonempty|].
  intros Hno. destruct (rows_of_response response) as (_ & Hfall & _).
  rewrite Hfall by (by apply contains_single_false).
  split; [apply fallback_rows_length|].
  intros i Hi. exists (Py.str_of_nat (i + 1)).
  split; [apply str_of_nat_decimal|]. by apply fallback_rows_lookup.
Qed.

Lemma skeleton_transition_succeeds_witness :
  let st' := fst (run literal_python
                    (skeleton_click (Ok (lit "I am sorry, I cannot do that.")))
                    locked_state) in
  (exists df, syllabus_df st' = Some df /\ placeholder_entries df) /\
  (syllabus_df st' ≫= (.!! 0%nat)) =
    Some {| Week := lit "Week 1"; Theme := lit "Topic";
            Grammar_Focus := lit "Grammar"; Status := lit "🔴" |} /\
  (syllabus_df st' ≫= (.!! 33%nat)) =
    Some {| Week := lit "Week 34"; Theme := lit "Topic";
            Grammar_Focus := lit "Grammar"; Status := lit "🔴" |} /\
  (syllabus_df st' ≫= (.!! 34%nat)) = None.
Proof.
  destruct (skeleton_transition_succeeds literal_python
              (skeleton_click (Ok (lit "I am sorry, I cannot do that.")))
              locked_state sample_config (lit "I am sorry, I cannot do that.")
              eq_refl locked_state_coherent eq_refl eq_refl eq_refl eq_refl)
    as (_ & (df & Hdf & _ & Hfall) & _).
  split.
  { exists df. split; [exact Hdf|]. apply Hfall.
    apply (bool_decide_unpack _). by vm_compute. }
  by vm_compute.
Defined.

(** C4: the response is cut into its lines; each line with the separator
    gives one entry and a line without it gives none; the entries stand in
    the order of their lines; an entry carries the label [Week n] with [n]
    the one-based position of its line among all the lines, the trimmed
    text before the first separator as topic and the trimmed text up to
    the next separator as grammar; and with at least one such line the plan
    stored is these entries and nothing more, as many as there are lines
    with a separator. *)
Theorem skeleton_parser_lines
    (py : Python) (w : Widgets) (st : SessionState) (c : Config) (response : str)
    (Hlocked : locked_config st = Some c) (Hst : coherent st)
    (Hnone : syllabus_df st = None)
    (Hclick : clicked w = Some Generate_Skeleton)
    (Hkey : nonempty (api_key w) = true)
    (Hreply : gemini w (api_key w) (skeleton_prompt py (Some c)) = Ok response)
    (Hvalid : 124 ∈ response) :
  exists lines df,
    generate_skeleton_llm py (gemini w) (Some c) (api_key w) = Ok lines /\
    lines_of response lines /\
    syllabus_df (fst (run py w st)) = Some df /\
    entries_of lines df /\
    df <> [].
Proof.
  set (lines := Py.split [nl] (Py.strip response)).
  destruct (rows_of_response response) as (_ & _ & Hrows).
  destruct Hrows as [Hne Hdf]; [by apply contains_single|]. fold lines in Hne, Hdf.
  exists lines, (build_skeleton lines).
  split; [unfold generate_skeleton_llm; by rewrite Hreply|].
  split; [apply lines_of_split|].
  split; [by rewrite (run_generate_skeleton py w st c response)|].
  split; [|apply build_skeleton_nonempty].
  rewrite Hdf. exists (map fst (valid_lines lines)).
  split; [apply valid_lines_sorted|]. split.
  { intros i. rewrite list_elem_of_fmap. split.
    - intros ([j line] & -> & H%elem_of_valid_lines). exists line.
      destruct H as [H1 H2]. split; [done|]. by apply contains_single.
    - intros (line & H1 & H2). exists (i, line). split; [done|].
      apply elem_of_valid_lines. split; [done|]. by apply contains_single. }
  split; [by rewrite !length_map|].
  intros k i Hk. rewrite list_lookup_fmap in Hk.
  destruct (valid_lines lines !! k) as [[j line]|] eqn:E; [|done].
  simpl in Hk. injection Hk as ->.
  assert ((i, line) ∈ valid_lines lines) as Hin by (by eapply list_elem_of_lookup_2).
  apply elem_of_valid_lines in Hin as [Hline Hpipe].
  destruct (has_pipe_split line Hpipe) as (a & b & -> & Ha).
  exists (a ++ pipe ++ b), (row_of_line i (a ++ pipe ++ b)).
  split; [done|]. split; [by rewrite list_lookup_fmap, E|].
  rewrite row_of_line_fields by done.
  exists a, b, (nth 0 (Py.split pipe b) []), (Py.str_of_nat (i + 1)).
  split; [done|]. split; [by apply contains_single_false|].
  split; [apply split_head|]. split; [apply str_of_nat_decimal|].
  split; [done|]. split; [apply strip_trimmed|]. split; [apply strip_trimmed|done].
Qed.

Lemma skeleton_parser_lines_witness :
  syllabus_df (fst (run literal_python (skeleton_click (Ok gapped_lines)) locked_state)) =
    Some [ {| Week := lit "Week 1"; Theme := lit "Myths: Zeus";
              Grammar_Focus := lit "Noun Gender"; Status := lit "🔴" |};
           {| Week := lit "Week 3"; Theme := lit "Food";
              Grammar_Focus := lit "Plural"; Status := lit "🔴" |} ] /\
  (map Week <$> syllabus_df (fst (run literal_python (skeleton_click (Ok ten_lines))
                                    locked_state))) =
    Some [ lit "Week 1"; lit "Week 2"; lit "Week 3"; lit "Week 4"; lit "Week 5";
           lit "Week 6"; lit "Week 7"; lit "Week 8"; lit "Week 9"; lit "Week 10" ] /\
  exists lines df,
    lines_of ten_lines lines /\
    syllabus_df (fst (run literal_python (skeleton_click (Ok ten_lines)) locked_state)) =
      Some df /\
    entries_of lines df /\ length df = 10%nat.
Proof.
  split; [by vm_compute|]. split; [by vm_compute|].
  destruct (skeleton_parser_lines literal_python (skeleton_click (Ok ten_lines))
              locked_state sample_config ten_lines
              eq_refl locked_state_coherent eq_refl eq_refl eq_refl eq_refl)
    as (lines & df & _ & Hlines & Hdf & Hentries & _).
  { apply (bool_decide_unpack _). by vm_compute. }
  exists lines, df. split; [exact Hlines|]. split; [exact Hdf|].
  split; [exact Hentries|].
  assert (length <$> syllabus_df (fst (run literal_python (skeleton_click (Ok ten_lines))
                                         locked_state)) = Some 10%nat) as Hlen
    by (by vm_compute).
  rewrite Hdf in Hlen. by injection Hlen.
Defined.

(** ** Stage 3: the lesson parser *)

(** C5: each of the three fields of a lesson is read from the raw text on
    its own: it is the trimmed text between the first opening tag of its
    section and the first closing tag after it (line breaks included), or
    the error marker of that section when there is no such region, whatever
    the other two sections look like; a section is found whatever stands
    before it, short of its own opening tag, and after it; and for the text
    [<TEACHER>A</TEACHER>] the teacher field is [A] and the other two are
    their markers. *)
Theorem lesson_sections_independent (raw pre x post : str) :
  parse_lesson raw =
    {| t_guide := section_or_marker "TEACHER" teacher_marker raw;
       s_text := section_or_marker "STUDENT_TEXT" student_marker raw;
       exercises := section_or_marker "STUDENT_EXERCISES" exercises_marker raw |} /\
  (Py.contains (lit "<TEACHER>") pre = false ->
   Py.contains (lit "</TEACHER>") x = false ->
   t_guide (parse_lesson (pre ++ lit "<TEACHER>" ++ x ++ lit "</TEACHER>" ++ post))
   = Py.strip x) /\
  (Py.contains (lit "<STUDENT_TEXT>") pre = false ->
   Py.contains (lit "</STUDENT_TEXT>") x = false ->
   s_text (parse_lesson (pre ++ lit "<STUDENT_TEXT>" ++ x ++ lit "</STUDENT_TEXT>" ++ post))
   = Py.strip x) /\
  (Py.contains (lit "<STUDENT_EXERCISES>") pre = false ->
   Py.contains (lit "</STUDENT_EXERCISES>") x = false ->
   exercises (parse_lesson
                (pre ++ lit "<STUDENT_EXERCISES>" ++ x ++ lit "</STUDENT_EXERCISES>" ++ post))
   = Py.strip x) /\
  (Py.contains (lit "<TEACHER>") raw = false -> t_guide (parse_lesson raw) = teacher_marker) /\
  (Py.contains (lit "<STUDENT_TEXT>") raw = false ->
   s_text (parse_lesson raw) = student_marker) /\
  (Py.contains (lit "<STUDENT_EXERCISES>") raw = false ->
   exercises (parse_lesson raw) = exercises_marker) /\
  parse_lesson (lit "<TEACHER>A</TEACHER>") =
    {| t_guide := lit "A"; s_text := student_marker; exercises := exercises_marker |}.
Proof.
  split.
  { unfold parse_lesson. by rewrite !extract_section_spec. }
  split.
  { intros Hpre Hx. cbn [parse_lesson t_guide].
    apply (extract_section_present "TEACHER" _ pre x post); [|done|done].
    apply (bool_decide_unpack _). by vm_compute. }
  split.
  { intros Hpre Hx. cbn [parse_lesson s_text].
    apply (extract_section_present "STUDENT_TEXT" _ pre x post); [|done|done].
    apply (bool_decide_unpack _). by vm_compute. }
  split.
  { intros Hpre Hx. cbn [parse_lesson exercises].
    apply (extract_section_present "STUDENT_EXERCISES" _ pre x post); [|done|done].
    apply (bool_decide_unpack _). by vm_compute. }
  split.
  { intros H. cbn [parse_lesson t_guide]. by apply (extract_section_absent "TEACHER"). }
  split.
  { intros H. cbn [parse_lesson s_text]. by apply (extract_section_absent "STUDENT_TEXT"). }
  split.
  { intros H. cbn [parse_lesson exercises].
    by apply (extract_section_absent "STUDENT_EXERCISES"). }
  by vm_compute.
Qed.

Lemma lesson_sections_independent_witness :
  let raw := lit "<STUDENT_TEXT>lost" ++ lit "<TEACHER>" ++ lit " Plan:
 read aloud " ++ lit "</TEACHER>" ++ lit "<STUDENT_EXERCISES>1. ..." in
  t_guide (parse_lesson raw) = lit "Plan:
 read aloud" /\
  s_text (parse_lesson raw) = student_marker /\
  exercises (parse_lesson raw) = exercises_marker.
Proof.
  intros raw.
  destruct (lesson_sections_independent raw (lit "<STUDENT_TEXT>lost") (lit " Plan:
 read aloud ") (lit "<STUDENT_EXERCISES>1. ...")) as (Hall & Ht & _).
  split; [|by vm_compute].
  unfold raw. rewrite Ht by (by vm_compute). by vm_compute.
Defined.

(** ** Failures of the model call *)

(** ** The model calls *)

(** C6: at each of the three stages an exception of the model call is
    caught nowhere in the script: the run ends there with that very
    exception, whatever it is, and the rest of the page is not run.  The
    handler has stored nothing by then: at stages 1 and 2 the state is the
    one before the run, at stage 3 it differs by the grid commit of line 185
    alone.  A PDF that cannot be read, by contrast, is caught inside
    [extract_pdf_text] (lines 29-37), and the run goes on to its end. *)
Theorem model_failure_uncaught
    (py : Python) (w : Widgets) (st : SessionState) (e : exn) :
  (forall uploaded raw_text,
     uploaded_curriculum w = Some uploaded -> nonempty (api_key w) = true ->
     truthy (analyzed_curriculum st) = false ->
     clicked w = Some Analyze_Document ->
     extract_pdf_text uploaded = Some raw_text -> nonempty raw_text = true ->
     gemini w (api_key w) (calibration_prompt raw_text) = Raised e ->
     snd (run py w st) = Stopped (Uncaught e) /\ fst (run py w st) = st) /\
  (forall c,
     locked_config st = Some c -> coherent st -> syllabus_df st = None ->
     clicked w = Some Generate_Skeleton -> nonempty (api_key w) = true ->
     gemini w (api_key w) (skeleton_prompt py (Some c)) = Raised e ->
     snd (run py w st) = Stopped (Uncaught e) /\ fst (run py w st) = st) /\
  (forall c df src,
     locked_config st = Some c -> coherent st -> syllabus_df st = Some df ->
     data_editor w df <> [] ->
     clicked w = Some Generate_Lesson_Materials -> nonempty (api_key w) = true ->
     read_sources (uploaded_context w) [] = Ok src ->
     gemini w (api_key w)
       (full_prompt py (Some c)
          (selectbox (map Week (data_editor w df)) (week_choice w))
          (custom_topic w) (custom_grammar w) (teacher_notes w)
          (accessibility w) src) = Raised e ->
     snd (run py w st) = Stopped (Uncaught e) /\
     syllabus_df (fst (run py w st)) = Some (data_editor w df) /\
     generated_lessons (fst (run py w st)) = generated_lessons st /\
     locked_config (fst (run py w st)) = Some c /\
     analyzed_curriculum (fst (run py w st)) = analyzed_curriculum st) /\
  (forall uploaded,
     uploaded_curriculum w = Some uploaded -> nonempty (api_key w) = true ->
     truthy (analyzed_curriculum st) = false ->
     locked_config st = None -> syllabus_df st = None ->
     clicked w = Some Analyze_Document ->
     extract_pdf_text uploaded = None ->
     run py w st = (st, Done {| need_api_key := false; preview := None |})).
Proof.
  split; [|split; [|split]].
  - intros uploaded raw_text Hu Hk Ht Hw Hx Hn Hg.
    by rewrite (run_analyze_fails py w st uploaded raw_text e).
  - intros c Hl Hc Hs Hw Hk Hg.
    by rewrite (run_generate_skeleton_fails py w st c e).
  - intros c df src Hl Hc Hs Hdf Hw Hk Hsrc Hg.
    by rewrite (run_generate_lesson_fails py w st c df src e).
  - intros uploaded Hu Hk Ht Hl Hs Hw Hx.
    by apply (run_analyze_unreadable py w st uploaded).
Qed.

Lemma model_failure_uncaught_witness :
  run literal_python (analyze_click (Raised quota_exceeded)) initial_state =
    (initial_state, Stopped (Uncaught quota_exceeded)) /\
  run literal_python (skeleton_click (Raised quota_exceeded)) locked_state =
    (locked_state, Stopped (Uncaught quota_exceeded)) /\
  snd (run literal_python (lesson_click [] (Raised quota_exceeded)) planned_state) =
    Stopped (Uncaught quota_exceeded) /\
  run literal_python
      (press Analyze_Document
         (with_upload {| name := lit "scan.pdf"; type := lit "application/pdf";
                         pdf_pages := None; utf8_text := None |}
            (idle secret (Raised quota_exceeded)))) initial_state =
    (initial_state, Done {| need_api_key := false; preview := None |}).
Proof.
  split; [|split; [|split]].
  - destruct (model_failure_uncaught literal_python (analyze_click (Raised quota_exceeded))
                initial_state quota_exceeded) as (H & _).
    destruct (H curriculum_pdf (unlines [lit "Kursplan i modersmal"])
                eq_refl eq_refl eq_refl eq_refl eq_refl eq_refl eq_refl) as [H1 H2].
    by vm_compute.
  - destruct (model_failure_uncaught literal_python (skeleton_click (Raised quota_exceeded))
                locked_state quota_exceeded) as (_ & H & _).
    destruct (H sample_config eq_refl locked_state_coherent eq_refl eq_refl eq_refl eq_refl)
      as [H1 H2].
    by vm_compute.
  - destruct (model_failure_uncaught literal_python
                (lesson_click [] (Raised quota_exceeded)) planned_state quota_exceeded)
      as (_ & _ & H & _).
    assert (data_editor (lesson_click [] (Raised quota_exceeded)) sample_plan <> [])
      as Hdf by discriminate.
    destruct (H sample_config sample_plan [] eq_refl planned_state_coherent eq_refl
                Hdf eq_refl eq_refl eq_refl eq_refl) as (Hend & _).
    exact Hend.
  - destruct (model_failure_uncaught literal_python
                (press Analyze_Document
                   (with_upload {| name := lit "scan.pdf"; type := lit "application/pdf";
                                   pdf_pages := None; utf8_text := None |}
                      (idle secret (Raised quota_exceeded))))
                initial_state quota_exceeded) as (_ & _ & _ & H).
    exact (H _ eq_refl eq_refl eq_refl eq_refl eq_refl eq_refl eq_refl).
Defined.

(** ** The reset of the plan *)

(** C7: pressing the reset button drops the whole plan, whatever its number
    of entries, and with it closes the workbench again (the lesson button
    then does nothing), while the locked profile, the analysis and every
    lesson generated so far stay as they were. *)
Theorem reset_clears_plan_only
    (py : Python) (w w' : Widgets) (st : SessionState) (c : Config) (df : DataFrame)
    (Hlocked : locked_config st = Some c) (Hst : coherent st)
    (Hplan : syllabus_df st = Some df)
    (Hclick : clicked w = Some Reset_Syllabus) :
  let st' := fst (run py w st) in
  snd (run py w st) = Stopped Rerun /\
  syllabus_df st' = None /\
  locked_config st' = Some c /\
  generated_lessons st' = generated_lessons st /\
  analyzed_curriculum st' = analyzed_curriculum st /\
  (clicked w' = Some Generate_Lesson_Materials ->
   run py w' st' = (st', Done {| need_api_key := false; preview := None |})).
Proof.
  intros st'. unfold st'. rewrite (run_reset py w st c df) by done.
  cbn [fst snd].
  split; [done|]. split; [done|]. split; [done|]. split; [done|]. split; [done|].
  intros Hw'. apply (run_workbench_closed py w' _ c); [done| |done|done].
  intros _. destruct Hst as (d & Hd & Hne); [congruence|]. by exists d.
Qed.

Lemma reset_clears_plan_only_witness :
  let st := set_generated_lessons {[ lit "Week 1" := lit "<TEACHER>A</TEACHER>" ]}
              planned_state in
  run literal_python reset_click st = (set_syllabus_df None st, Stopped Rerun) /\
  generated_lessons (fst (run literal_python reset_click st)) !! lit "Week 1" =
    Some (lit "<TEACHER>A</TEACHER>").
Proof.
  intros st.
  assert (coherent st) as Hst.
  { intros _. eexists. split; [reflexivity|discriminate]. }
  destruct (reset_clears_plan_only literal_python reset_click reset_click st
              sample_config sample_plan eq_refl Hst eq_refl eq_refl)
    as (Hend & Hplan & Hlock & Hlessons & Han & _).
  split; [by vm_compute|]. rewrite Hlessons. by vm_compute.
Defined.

(** ** Stage 3: the lesson prompt *)

(** C8, as stated, fails: with one uploaded text file that is empty there
    is no non-empty source excerpt, yet the concatenation holds the header of
    the file, so the prompt carries the strict instruction and not the
    creative one. *)
Lemma empty_source_counterexample :
  Forall (fun f => utf8_text f = Some []) [empty_notes] /\
  exists src,
    read_sources [empty_notes] [] = Ok src /\
    instruction_mode src = use_source_strictly /\
    Py.contains use_source_strictly
      (full_prompt literal_python (Some sample_config) (lit "Week 1") (lit "Myths")
         (lit "Nouns") [] false src) = true /\
    Py.contains write_creative
      (full_prompt literal_python (Some sample_config) (lit "Week 1") (lit "Myths")
         (lit "Nouns") [] false src) = false.
Proof.
  split; [by repeat constructor|].
  eexists. split; [reflexivity|]. by vm_compute.
Qed.

(** C8 (amended): the prompt is made of the lines with the context, the
    week, the notes and the accessibility constraint, then one instruction,
    then the source text; the instruction in that place is the strict one
    if and only if at least one file is uploaded, whether or not it has any
    text, and the creative one if and only if none is; the source text in
    the prompt is the first 20000 characters of the concatenation, all of
    it when it is shorter. *)
Theorem lesson_prompt_instruction
    (py : Python) (config : option Config)
    (week topic grammar notes : str) (access : bool)
    (files : list UploadedFile) (src : str)
    (Hread : read_sources files [] = Ok src) :
  full_prompt py config week topic grammar notes access src =
    prompt_head py config week topic grammar notes access ++
    instruction_mode src ++ prompt_middle ++ Py.prefix 20000 src ++ prompt_tail /\
  (instruction_mode src = use_source_strictly <-> files <> []) /\
  (instruction_mode src = write_creative <-> files = []) /\
  use_source_strictly <> write_creative /\
  (exists rest, src = Py.prefix 20000 src ++ rest) /\
  N.of_nat (length (Py.prefix 20000 src)) = N.min 20000 (N.of_nat (length src)).
Proof.
  pose proof (read_sources_mode files src Hread) as Hmode.
  assert (use_source_strictly <> write_creative) as Hne.
  { intros H. apply (f_equal length) in H. vm_compute in H. discriminate. }
  split; [apply full_prompt_parts|].
  split.
  { rewrite Hmode. destruct files as [|f files]; split; intros H.
    - exfalso. exact (Hne (eq_sym H)).
    - exfalso. exact (H eq_refl).
    - intros [=].
    - reflexivity. }
  split.
  { rewrite Hmode. destruct files as [|f files]; split; intros H.
    - reflexivity.
    - reflexivity.
    - exfalso. exact (Hne H).
    - exfalso. clear -H. inversion H. }
  split; [exact Hne|].
  apply prefix_spec.
Qed.

Lemma lesson_prompt_instruction_witness :
  let src := source_block (lit "long.txt") long_source in
  read_sources [text_file "long.txt" long_source] [] = Ok src /\
  instruction_mode src = use_source_strictly /\
  N.of_nat (length src) = 20025 /\
  N.of_nat (length (Py.prefix 20000 src)) = 20000 /\
  Py.contains (lit "TAIL") src = true /\
  Py.contains (lit "TAIL")
    (full_prompt literal_python (Some sample_config) (lit "Week 1") (lit "Myths")
       (lit "Nouns") [] false src) = false.
Proof.
  destruct (lesson_prompt_instruction literal_python (Some sample_config) (lit "Week 1")
              (lit "Myths") (lit "Nouns") [] false
              [text_file "long.txt" long_source]
              (source_block (lit "long.txt") long_source) eq_refl)
    as (_ & H1 & _ & _ & _ & H2).
  split; [reflexivity|]. split; [apply H1; discriminate|].
  split; [vm_compute; reflexivity|].
  split; [rewrite H2; vm_compute; reflexivity|].
  split; vm_compute; reflexivity.
Defined.

(** ** Stage 3: generating a lesson *)

(** C9: a model response can create lesson material with no plan at all.
    The calibration parser gives the response to [eval], which runs it with
    the globals of the script; the response below stores a lessons dict in
    the session state and has the value of an ordinary four-key profile.
    After the one run in which the Analyze button is pressed there is
    material under the week [Week 99], while no plan has ever been made and
    no profile locked. *)
Theorem lesson_created_without_plan (py : Python) (Hpy : agrees_on_fragment py) :
  let w := analyze_click (Ok injected_response) in
  let st1 := fst (run py w initial_state) in
  snd (run py w initial_state) = Stopped Rerun /\
  syllabus_df st1 = None /\
  locked_config st1 = None /\
  generated_lessons initial_state !! lit "Week 99" = None /\
  generated_lessons st1 !! lit "Week 99" = Some (lit "x") /\
  analyzed_curriculum st1 = profile_dict injected_profile.
Proof.
  intros w st1.
  assert (parse_calibration py injected_response initial_state =
          (set_generated_lessons {[ lit "Week 99" := lit "x" ]} initial_state,
           profile_dict injected_profile)) as Hparse.
  { unfold parse_calibration.
    replace (clean_response injected_response) with injected_response by (by vm_compute).
    by rewrite (Hpy injected_response initial_state
                  (set_generated_lessons {[ lit "Week 99" := lit "x" ]} initial_state)
                  (profile_dict injected_profile)) by (by vm_compute). }
  assert (run py w initial_state =
          (set_analyzed_curriculum (profile_dict injected_profile)
             (set_generated_lessons {[ lit "Week 99" := lit "x" ]} initial_state),
           Stopped Rerun)) as Hrun.
  { rewrite (run_analyze py w initial_state curriculum_pdf
               (unlines [lit "Kursplan i modersmal"]) injected_response) by reflexivity.
    by rewrite Hparse. }
  unfold st1. rewrite Hrun. cbn [fst snd].
  split; [done|]. split; [done|]. split; [done|]. split; [done|].
  split; [|done]. cbn [generated_lessons set_analyzed_curriculum set_generated_lessons].
  apply lookup_singleton_eq.
Qed.

Lemma lesson_created_without_plan_witness :
  let st1 := fst (run literal_python (analyze_click (Ok injected_response)) initial_state) in
  syllabus_df st1 = None /\
  generated_lessons st1 !! lit "Week 99" = Some (lit "x").
Proof.
  destruct (lesson_created_without_plan literal_python literal_python_agrees)
    as (_ & H1 & _ & _ & H2 & _).
  split; [exact H1|exact H2].
Defined.

(** * Further properties of the script *)












